(** * HealthCost-AI: the supervisor pipeline and the agents behind it

    A shallow embedding of

    - [src/tools/medical_tools.py]    (entity extraction, symptom table),
    - [src/agents/cost_estimator.py]  (closed-form cost arithmetic),
    - [src/agents/supervisor.py]      (intent classification and aggregation),
    - [src/agents/health_advisor.py]  (the prompt and the error handling
                                       around the chat model),
    - [src/agents/hospital_finder.py] (the filters over the hospital frame),
    - [src/app.py]                    (the session start and the submit
                                       handler),

    followed by the properties the specification states about them and by
    further properties read off the code.

    Python values are modelled as follows.  A [str] is a [string] holding the
    UTF-8 bytes of the text; an [int] is a [Z]; a [float] is an IEEE-754
    binary64 number, [spec_float] with the standard library's executable
    arithmetic; a [dict] with string keys is an association list in insertion
    order, or a record when its keys are fixed; a call that can raise returns
    a [res].  The chat model, the regular-expression search of the frame
    library and the Unicode-aware string routines are parameters. *)

From Stdlib Require Import ZArith String Ascii List Bool Lia.
From Stdlib Require Import DecimalString Floats.SpecFloat.
Import ListNotations.

Open Scope string_scope.
Open Scope Z_scope.

(** ** Exceptions and fallible results *)

Inductive exn : Type :=
| KeyError (key : string)
| OverflowError (msg : string)
| ZeroDivisionError (msg : string)
| ValueError (msg : string)
| ExternalError (msg : string).   (* anything a collaborator raises *)

Inductive res (A : Type) : Type :=
| Ret (a : A)
| Raise (e : exn).

Arguments Ret {A} a.
Arguments Raise {A} e.

Definition res_bind {A B : Type} (m : res A) (f : A -> res B) : res B :=
  match m with
  | Ret a => f a
  | Raise e => Raise e
  end.

Declare Scope res_scope.
Delimit Scope res_scope with res.
Notation "x <- m ;; k" := (res_bind m (fun x => k))
  (at level 61, m at next level, right associativity) : res_scope.

(** ** The pieces of Python's [str] the program uses *)

(** The line feed, written ["\n"] in the source. *)
Definition nl : string := String (ascii_of_nat 10) EmptyString.

(** [k in q] on strings: [k] occurs in [q] as a contiguous substring. *)
Fixpoint contains (k q : string) : bool :=
  if prefix k q then true
  else match q with
       | EmptyString => false
       | String _ q' => contains k q'
       end.

(** [sep.join(parts)]. *)
Fixpoint join (sep : string) (parts : list string) : string :=
  match parts with
  | [] => ""
  | [p] => p
  | p :: ps => p ++ sep ++ join sep ps
  end.

(** The decimal digits of [i], after a minus sign when [i] is negative. *)
Definition decimal (i : Z) : string := NilZero.string_of_int (Z.to_int i).

(** [sys.get_int_max_str_digits()], at its default. *)
Definition int_max_str_digits : Z := 4300.

(** [str(i)] for an [int], and [i] inside an f-string: an [int] of more
    digits than the limit is not converted. *)
Definition str_of_int (i : Z) : res string :=
  if Z.abs i <? 10 ^ int_max_str_digits then Ret (decimal i)
  else Raise (ValueError "Exceeds the limit (4300 digits) for integer string conversion; use sys.set_int_max_str_digits() to increase the limit").

(** [parts.append(x)], on a list passed along by value. *)
Definition append (parts : list string) (x : string) : list string :=
  (parts ++ [x])%list.

(** [any(k in q for k in keywords)]. *)
Definition any_in (keywords : list string) (q : string) : bool :=
  existsb (fun k => contains k q) keywords.

(** [enumerate(xs, start)]. *)
Fixpoint enumerate {A : Type} (start : Z) (xs : list A) : list (Z * A) :=
  match xs with
  | [] => []
  | x :: xs' => (start, x) :: enumerate (start + 1) xs'
  end.

(** [d.get(key)] on a dict kept as an association list. *)
Fixpoint dict_get {V : Type} (d : list (string * V)) (key : string) : option V :=
  match d with
  | [] => None
  | (k, v) :: d' => if String.eqb k key then Some v else dict_get d' key
  end.

(** [d[key]] where the entry may be missing. *)
Definition getitem {V : Type} (key : string) (entry : option V) : res V :=
  match entry with
  | Some v => Ret v
  | None => Raise (KeyError key)
  end.

(** [str.lower], [str.strip] and [repr] of a float are Unicode- and
    dtoa-driven library routines; the development is parametric in them.
    [ascii_builtins] below is their restriction to ASCII text, which is what
    every concrete query in this file uses. *)
Class Builtins : Type := {
  lower : string -> string;
  strip : string -> string;
  float_repr : spec_float -> string
}.

(** The text is ASCII: every character is below 128.  [lower_ascii] and
    [strip_ascii] below are [str.lower] and [str.strip] on such text, and
    only there. *)
Fixpoint is_ascii (s : string) : bool :=
  match s with
  | EmptyString => true
  | String c s' => (nat_of_ascii c <? 128)%nat && is_ascii s'
  end.

Definition lower_ascii_char (c : ascii) : ascii :=
  let n := nat_of_ascii c in
  if ((65 <=? n) && (n <=? 90))%nat then ascii_of_nat (n + 32) else c.

Fixpoint lower_ascii (s : string) : string :=
  match s with
  | EmptyString => EmptyString
  | String c s' => String (lower_ascii_char c) (lower_ascii s')
  end.

(** The ASCII characters [str.strip()] removes: TAB, LF, VT, FF, CR,
    FS, GS, RS, US and the space. *)
Definition is_space (c : ascii) : bool :=
  let n := nat_of_ascii c in
  (((9 <=? n) && (n <=? 13)) || ((28 <=? n) && (n <=? 32)))%nat.

Fixpoint lstrip_ascii (s : string) : string :=
  match s with
  | EmptyString => EmptyString
  | String c s' => if is_space c then lstrip_ascii s' else s
  end.

Fixpoint rstrip_ascii (s : string) : string :=
  match s with
  | EmptyString => EmptyString
  | String c s' =>
      match rstrip_ascii s' with
      | EmptyString => if is_space c then EmptyString else String c EmptyString
      | t => String c t
      end
  end.

Definition strip_ascii (s : string) : string := rstrip_ascii (lstrip_ascii s).

(** ** Python numbers: [int] and [float] *)

(** binary64: 53 bits of precision, exponents below 1024. *)
Definition float : Type := spec_float.
Definition fadd : float -> float -> float := SFadd 53 1024.
Definition fmul : float -> float -> float := SFmul 53 1024.
Definition fdiv : float -> float -> float := SFdiv 53 1024.

(** The double nearest to the integer [z] (ties to even). *)
Definition nearest_float (z : Z) : float := binary_normalize 53 1024 z 0 false.

(** The decimal literal [num / 10^k], e.g. [0.24] is [float_lit 24 100]:
    both operands are exact, so the quotient is the correctly rounded double. *)
Definition float_lit (num den : Z) : float :=
  fdiv (nearest_float num) (nearest_float den).

(** Integers from [float_limit] on round to 2^1024, which is no double:
    the limit is half-way between the largest double and 2^1024. *)
Definition float_limit : Z := 2 ^ 1024 - 2 ^ 970.

(** The implicit [int] to [float] conversion of mixed arithmetic. *)
Definition float_of_int (z : Z) : res float :=
  if Z.abs z <? float_limit then Ret (nearest_float z)
  else Raise (OverflowError "int too large to convert to float").

(** [n / d] rounded to the nearest integer, ties to even ([0 < d]). *)
Definition round_half_even (n d : Z) : Z :=
  let q := n / d in
  let r := n mod d in
  if 2 * r <? d then q
  else if d <? 2 * r then q + 1
  else if Z.even q then q else q + 1.

(** The double nearest to [n / p] with the sign [s] ([0 <= n], [0 < p]):
    the quotient is taken with guard bits and a sticky bit. *)
Definition nearest_ratio (s : bool) (n p : Z) : float :=
  if n =? 0 then S754_zero s
  else
    let k := 64 + 4 * Z.log2_up p in
    let q := (n * 2 ^ k) / p in
    let sticky := if (n * 2 ^ k) mod p =? 0 then 0 else 1 in
    let m := 2 * q + sticky in
    binary_normalize 53 1024 (if s then - m else m) (- (k + 1)) s.

(** [round(x, ndigits)] for a float and [0 <= ndigits]: the exact value is
    rounded to [ndigits] decimals (ties to even) and the decimal is read
    back as the nearest double; infinities and NaN round to themselves. *)
Definition float_round (x : float) (ndigits : Z) : float :=
  match x with
  | S754_finite s m e =>
      let p := 10 ^ ndigits in
      let n := if 0 <=? e then Zpos m * 2 ^ e * p
               else round_half_even (Zpos m * p) (2 ^ (- e)) in
      nearest_ratio s n p
  | _ => x
  end.

(** A number as the program holds it at run time. *)
Inductive num : Type :=
| Int (z : Z)
| Float (x : float).

(** [i * x] for an [int] and a [float]. *)
Definition int_mul_float (i : Z) (x : float) : res float :=
  (i' <- float_of_int i ;; Ret (fmul i' x))%res.

(** [i + x] for an [int] and a [float]. *)
Definition int_add_float (i : Z) (x : float) : res float :=
  (i' <- float_of_int i ;; Ret (fadd i' x))%res.

(** [x + i] for a [float] and an [int]. *)
Definition float_add_int (x : float) (i : Z) : res float :=
  (i' <- float_of_int i ;; Ret (fadd x i'))%res.

(** [a + b]. *)
Definition num_add (a b : num) : res num :=
  match a, b with
  | Int x, Int y => Ret (Int (x + y))
  | Int x, Float y => (r <- int_add_float x y ;; Ret (Float r))%res
  | Float x, Int y => (r <- float_add_int x y ;; Ret (Float r))%res
  | Float x, Float y => Ret (Float (fadd x y))
  end.

(** [x / i] for a [float] and an [int].  The division tests the converted
    divisor against zero; an [int] converts to zero only if it is zero, so
    the test is made on the [int]. *)
Definition float_div_int (x : float) (i : Z) : res float :=
  (i' <- float_of_int i ;;
   if i =? 0 then Raise (ZeroDivisionError "float division by zero")
   else Ret (fdiv x i'))%res.

(** [round(a, ndigits)] with [0 <= ndigits]: an [int] is returned as it is. *)
Definition num_round (a : num) (ndigits : Z) : num :=
  match a with
  | Int z => Int z
  | Float x => Float (float_round x ndigits)
  end.

(** [format(a)] inside an f-string. *)
Definition num_format `{Builtins} (a : num) : res string :=
  match a with
  | Int z => str_of_int z
  | Float x => Ret (float_repr x)
  end.

(** ** [tools/medical_tools.py] *)

Module MedicalTools.
Section WithBuiltins.
Context `{Builtins}.

(** The alias table of [extract_location_from_query], in definition order
    (the order [cities.items()] iterates in). *)
Definition cities : list (string * string) :=
  [ ("delhi", "Delhi");
    ("mumbai", "Mumbai");
    ("bombay", "Mumbai");
    ("bangalore", "Bangalore");
    ("bengaluru", "Bangalore");
    ("hyderabad", "Hyderabad");
    ("pune", "Pune");
    ("kolkata", "Kolkata");
    ("chennai", "Chennai");
    ("ncr", "Delhi") ].

(** [for key, city in items: if key in q: return city] then [return None]. *)
Fixpoint location_loop (items : list (string * string)) (q : string)
  : option string :=
  match items with
  | [] => None
  | (key, city) :: rest =>
      if contains key q then Some city else location_loop rest q
  end.

Definition extract_location_from_query (query : string) : option string :=
  let q := lower query in
  location_loop cities q.

Definition diseases : list string :=
  [ "diabetes";
    "hypertension";
    "asthma";
    "heart disease";
    "cancer";
    "kidney disease";
    "liver disease";
    "arthritis";
    "thyroid" ].

(** [for d in ds: if d in q: return d] then [return "general"]. *)
Fixpoint disease_loop (ds : list string) (q : string) : string :=
  match ds with
  | [] => "general"
  | d :: rest => if contains d q then d else disease_loop rest q
  end.

Definition extract_disease_from_query (query : string) : string :=
  let q := lower query in
  disease_loop diseases q.

Definition DISEASE_SYMPTOMS : list (string * list string) :=
  [ ("diabetes",
      ["increased thirst"; "frequent urination"; "fatigue"; "blurred vision";
       "slow wound healing"]);
    ("hypertension",
      ["headaches"; "shortness of breath"; "nosebleeds"; "fatigue";
       "chest pain"]);
    ("asthma",
      ["shortness of breath"; "chest tightness"; "wheezing"; "coughing";
       "difficulty sleeping"]);
    ("heart disease",
      ["chest pain"; "shortness of breath"; "irregular heartbeat"; "fatigue";
       "dizziness"]) ].

(** [DISEASE_SYMPTOMS.get(disease.lower(), [])]. *)
Definition get_disease_symptoms (disease : string) : list string :=
  match dict_get DISEASE_SYMPTOMS (lower disease) with
  | Some symptoms => symptoms
  | None => []
  end.

End WithBuiltins.
End MedicalTools.

(** ** [agents/cost_estimator.py] *)

(** The [summary] entry of a cost estimate. *)
Record Summary : Type := {
  hospitalization : num;
  annual_medicines : num;
  annual_opd_visits : num;
  estimated_annual_total : num
}.

Module CostEstimatorAgent.
Section WithBuiltins.
Context `{Builtins}.

Definition dict_get_default {V : Type} (d : list (string * V)) (key : string)
  (default : V) : V :=
  match dict_get d key with
  | Some v => v
  | None => default
  end.

Definition room_costs : list (string * list (string * Z)) :=
  [ ("district", [("per_day", 350); ("opd", 94)]);
    ("tertiary", [("per_day", 600); ("opd", 304)]);
    ("private", [("per_day", 6000); ("opd", 1251)]);
    ("metro_private", [("per_day", 8000); ("opd", 1500)]) ].

Definition medicine_costs : list (string * list (string * Z)) :=
  [ ("diabetes",
      [("insulin", 1500); ("metformin", 200); ("test_strips", 800);
       ("monthly_total", 2500)]);
    ("hypertension",
      [("ace_inhibitor", 300); ("beta_blocker", 250); ("monthly_total", 550)]);
    ("asthma",
      [("inhaler", 600); ("preventive", 400); ("monthly_total", 1000)]);
    ("heart disease",
      [("statins", 500); ("aspirin", 50); ("beta_blocker", 300);
       ("monthly_total", 850)]) ].

Record Breakdown : Type := {
  room_charges : num;
  medicines : num;
  tests_diagnostics : num;
  doctor_fees : num;
  other_expenses : num;
  procedure_cost : num
}.

Record HospitalizationCost : Type := {
  hosp_status : string;
  hospital_type : string;
  days_admitted : Z;
  breakdown : Breakdown;
  total_cost : num;
  average_per_day : num
}.

Definition calculate_hospitalization_cost (hospital_type : string) (days : Z)
  (procedure_cost : Z) : res HospitalizationCost :=
  let cost_per_day :=
    dict_get_default (dict_get_default room_costs hospital_type []) "per_day" 1000 in
  let room_total := cost_per_day * Z.max days 1 in
  (medicines <- int_mul_float room_total (float_lit 24 100) ;;
   tests <- int_mul_float room_total (float_lit 10 100) ;;
   doctor_fees <- int_mul_float room_total (float_lit 17 100) ;;
   other <- int_mul_float room_total (float_lit 39 100) ;;
   t <- int_add_float room_total medicines ;;
   total <- float_add_int (fadd (fadd (fadd t tests) doctor_fees) other)
              procedure_cost ;;
   per_day <- float_div_int total (Z.max days 1) ;;
   Ret {| hosp_status := "success";
          hospital_type := hospital_type;
          days_admitted := days;
          breakdown :=
            {| room_charges := num_round (Int room_total) 2;
               medicines := num_round (Float medicines) 2;
               tests_diagnostics := num_round (Float tests) 2;
               doctor_fees := num_round (Float doctor_fees) 2;
               other_expenses := num_round (Float other) 2;
               procedure_cost := Int procedure_cost |};
          total_cost := num_round (Float total) 2;
          average_per_day := num_round (Float per_day) 2 |})%res.

(** The dict [calculate_annual_medicine_cost] returns has one of two
    shapes, told apart by its ["status"] entry. *)
Inductive MedicineCost : Type :=
| MedicineNotFound (error : string) (available_diseases : list string)
| MedicineSuccess (disease : string) (medicine_breakdown : list (string * Z))
    (monthly_total annual_total average_per_month : Z).

Definition medicine_status (r : MedicineCost) : string :=
  match r with
  | MedicineNotFound _ _ => "not_found"
  | MedicineSuccess _ _ _ _ _ => "success"
  end.

(** [r.get("annual_total", default)]. *)
Definition medicine_annual_total (r : MedicineCost) (default : Z) : Z :=
  match r with
  | MedicineNotFound _ _ => default
  | MedicineSuccess _ _ _ annual_total _ => annual_total
  end.

(** The items of [d] whose key is not ["monthly_total"]. *)
Definition without_monthly_total (d : list (string * Z)) : list (string * Z) :=
  filter (fun kv => negb (String.eqb (fst kv) "monthly_total")) d.

Definition calculate_annual_medicine_cost (disease : string) : MedicineCost :=
  let key := lower disease in
  match dict_get medicine_costs key with
  | None | Some [] =>
      MedicineNotFound
        ("Disease '" ++ disease ++ "' not found in medicine database.")
        (map fst medicine_costs)
  | Some monthly_meds =>
      let monthly_total :=
        dict_get_default monthly_meds "monthly_total"
          (fold_left Z.add (map snd (without_monthly_total monthly_meds)) 0) in
      let annual_total := monthly_total * 12 in
      let breakdown := without_monthly_total monthly_meds in
      MedicineSuccess disease breakdown monthly_total annual_total monthly_total
  end.

Record Details : Type := {
  hospitalization_details : option HospitalizationCost;   (* [None] is [{}] *)
  medicine_details : MedicineCost;
  opd_cost_per_visit : Z;
  opd_visits_per_year : Z
}.

Record Estimate : Type := {
  status : string;
  disease : string;
  summary : Summary;
  details : Details
}.

Definition estimate_total_healthcare_cost (disease hospital_type : string)
  (hospital_days opd_visits_per_year : Z) : res Estimate :=
  (hosp <- (if 0 <? hospital_days then
              hosp_result <- calculate_hospitalization_cost hospital_type
                               hospital_days 0 ;;
              Ret (total_cost hosp_result, Some hosp_result)
            else Ret (Int 0, None)) ;;
   let hosp_cost := fst hosp in
   let hosp_details := snd hosp in
   let med_result := calculate_annual_medicine_cost disease in
   let annual_med_cost :=
     if String.eqb (medicine_status med_result) "success"
     then medicine_annual_total med_result 0 else 0 in
   let opd_per_visit :=
     dict_get_default (dict_get_default room_costs hospital_type []) "opd" 300 in
   let annual_opd_cost := opd_per_visit * opd_visits_per_year in
   t <- num_add hosp_cost (Int annual_med_cost) ;;
   total <- num_add t (Int annual_opd_cost) ;;
   Ret {| status := "success";
          disease := disease;
          summary :=
            {| hospitalization := num_round hosp_cost 2;
               annual_medicines := num_round (Int annual_med_cost) 2;
               annual_opd_visits := num_round (Int annual_opd_cost) 2;
               estimated_annual_total := num_round total 2 |};
          details :=
            {| hospitalization_details := hosp_details;
               medicine_details := med_result;
               opd_cost_per_visit := opd_per_visit;
               opd_visits_per_year := opd_visits_per_year |} |})%res.

End WithBuiltins.
End CostEstimatorAgent.

(** ** [agents/supervisor.py] *)

Module SupervisorAgent.

(** *** The collaborators

    Each collaborator returns a dict or raises.  Of a returned dict the
    record keeps the entries [process] reads: ["status"] is always there,
    the payload entry only in some results. *)

Record DiseaseInfo : Type := {
  info_status : string;
  information : option string
}.

Record Hospital : Type := {
  name : string;
  city : string;
  state : string;
  type : string;
  specialties : string;
  beds : Z;
  contact : string
}.

Record HospitalResult : Type := {
  hospital_status : string;
  hospitals : option (list Hospital)
}.

Record CostResult : Type := {
  cost_status : string;
  summary : option Summary
}.

Record HealthAdvisor : Type := {
  get_disease_info : string -> res DiseaseInfo
}.

Record HospitalFinder : Type := {
  find_hospitals :
    option string -> option string -> string -> Z -> res HospitalResult
}.

Record CostEstimator : Type := {
  estimate_total_healthcare_cost :
    string -> string -> Z -> Z -> res CostResult
}.

(** [self]: the three agents built by [__init__] ([self.tools] has static
    methods only and is [MedicalTools]). *)
Record t : Type := {
  health_advisor : HealthAdvisor;
  hospital_finder : HospitalFinder;
  cost_estimator : CostEstimator
}.

(** *** Calls and their trace

    [process] is run in a monad that records, in order, every method call it
    makes, and stops at the first exception. *)

Inductive call : Type :=
| Call_needs_health_info (query : string)
| Call_needs_hospital (query : string)
| Call_needs_cost (query : string)
| Call_extract_disease_from_query (query : string)
| Call_extract_location_from_query (query : string)
| Call_get_disease_info (disease_name : string)
| Call_find_hospitals (disease location : option string)
    (hospital_type : string) (top_n : Z)
| Call_estimate_total_healthcare_cost (disease hospital_type : string)
    (hospital_days opd_visits_per_year : Z).

Definition M (A : Type) : Type := (list call * res A)%type.

Definition ret {A : Type} (a : A) : M A := ([], Ret a).

Definition bind {A B : Type} (m : M A) (f : A -> M B) : M B :=
  match m with
  | (tr, Ret a) => let (tr', r) := f a in ((tr ++ tr')%list, r)
  | (tr, Raise e) => (tr, Raise e)
  end.

(** A method call: the call is recorded, its outcome is the result. *)
Definition invoke {A : Type} (c : call) (outcome : res A) : M A := ([c], outcome).

(** A step that calls no method but may raise. *)
Definition lift {A : Type} (outcome : res A) : M A := ([], outcome).

Declare Scope trace_scope.
Delimit Scope trace_scope with trace.
Notation "x <- m ;; k" := (bind m (fun x => k))
  (at level 61, m at next level, right associativity) : trace_scope.

Definition trace {A : Type} (m : M A) : list call := fst m.
Definition outcome {A : Type} (m : M A) : res A := snd m.

Section WithBuiltins.
Context `{Builtins}.

Definition health_keywords : list string :=
  ["what is"; "symptom"; "symptoms"; "disease"; "bimari"; "health"; "info"].

Definition hospital_keywords : list string :=
  ["hospital"; "doctor"; "where"; "best hospital"; "admit"; "treatment"].

Definition cost_keywords : list string :=
  ["cost"; "price"; "kitna"; "kharcha"; "expense"; "fees"; "charges"].

Definition _needs_health_info (query : string) : bool :=
  let q := lower query in
  any_in health_keywords q.

Definition _needs_hospital (query : string) : bool :=
  let q := lower query in
  any_in hospital_keywords q.

Definition _needs_cost (query : string) : bool :=
  let q := lower query in
  any_in cost_keywords q.

(** *** The fixed texts *)

Definition guidance_text : string := "Please enter a valid question.".

Definition help_text : string :=
  "I could not understand what you need." ++ nl ++ nl ++
  "You can ask things like:" ++ nl ++
  "- 'What are symptoms of diabetes?'" ++ nl ++
  "- 'Find hospitals in Delhi for heart treatment'" ++ nl ++
  "- 'How much does diabetes treatment cost per year?'".

Definition health_header : string := "📋 HEALTH INFORMATION" ++ nl.
Definition health_failure_text : string :=
  health_header ++ "Sorry, could not fetch disease information.".

Definition hospital_header : string := "🏥 HOSPITAL RECOMMENDATIONS" ++ nl.
Definition hospital_failure_text : string :=
  hospital_header ++ "No hospitals found for given criteria.".

Definition cost_header : string := "💰 COST ESTIMATES" ++ nl.
Definition cost_failure_text : string :=
  cost_header ++ "Could not calculate healthcare cost.".

(** One round of the loop over [enumerate(hospitals, start=1)]: the
    f-string is formatted, then added to the text. *)
Definition hospital_entry (hospitals_text : string) (item : Z * Hospital)
  : res string :=
  let (i, hosp) := item in
  (number <- str_of_int i ;;
   bed_count <- str_of_int (beds hosp) ;;
   Ret (hospitals_text ++
          (nl ++ number ++ ". " ++ name hosp ++ " (" ++ city hosp ++ ", "
              ++ state hosp ++ ")"
           ++ nl ++ "   Type: " ++ type hosp
           ++ nl ++ "   Specialties: " ++ specialties hosp
           ++ nl ++ "   Beds: " ++ bed_count
           ++ nl ++ "   Contact: " ++ contact hosp ++ nl)))%res.

(** The loop itself, stopping at the first round that raises. *)
Fixpoint hospital_loop (items : list (Z * Hospital)) (hospitals_text : string)
  : res string :=
  match items with
  | [] => Ret hospitals_text
  | item :: rest =>
      (hospitals_text <- hospital_entry hospitals_text item ;;
       hospital_loop rest hospitals_text)%res
  end.

Definition hospitals_text (hs : list Hospital) : res string :=
  hospital_loop (enumerate 1 hs) hospital_header.

Definition cost_text (summary : Summary) : res string :=
  (medicines <- num_format (annual_medicines summary) ;;
   opd <- num_format (annual_opd_visits summary) ;;
   stay <- num_format (hospitalization summary) ;;
   total <- num_format (estimated_annual_total summary) ;;
   Ret (cost_header
        ++ "- Annual Medicines: ₹" ++ medicines ++ nl
        ++ "- Annual OPD Visits: ₹" ++ opd ++ nl
        ++ "- Hospitalization (approx): ₹" ++ stay ++ nl
        ++ "- Estimated Annual Total: ₹" ++ total ++ nl))%res.

(** *** [process] *)

Definition process (self : t) (query : string) : M string :=
  let query := strip query in
  if String.eqb query "" then ret guidance_text
  else
    (wants_health <-
       invoke (Call_needs_health_info query) (Ret (_needs_health_info query)) ;;
     wants_hospital <-
       invoke (Call_needs_hospital query) (Ret (_needs_hospital query)) ;;
     wants_cost <-
       invoke (Call_needs_cost query) (Ret (_needs_cost query)) ;;
     disease <-
       invoke (Call_extract_disease_from_query query)
         (Ret (MedicalTools.extract_disease_from_query query)) ;;
     location <-
       invoke (Call_extract_location_from_query query)
         (Ret (MedicalTools.extract_location_from_query query)) ;;
     let parts : list string := [] in
     (* 1) Health information *)
     parts <-
       (if wants_health : bool then
          let disease_for_info :=
            if String.eqb disease "general" then query else disease in
          info <-
            invoke (Call_get_disease_info disease_for_info)
              (get_disease_info (health_advisor self) disease_for_info) ;;
          if String.eqb (info_status info) "success" then
            text <- lift (getitem "information" (information info)) ;;
            ret (append parts (health_header ++ text))
          else ret (append parts health_failure_text)
        else ret parts) ;;
     (* 2) Hospital recommendations *)
     parts <-
       (if wants_hospital : bool then
          let disease_arg :=
            if String.eqb disease "general" then None else Some disease in
          hospital_result <-
            invoke (Call_find_hospitals disease_arg location "Private" 5)
              (find_hospitals (hospital_finder self)
                 disease_arg location "Private" 5) ;;
          if String.eqb (hospital_status hospital_result) "success" then
            hs <- lift (getitem "hospitals" (hospitals hospital_result)) ;;
            text <- lift (hospitals_text hs) ;;
            ret (append parts text)
          else ret (append parts hospital_failure_text)
        else ret parts) ;;
     (* 3) Cost estimation *)
     parts <-
       (if wants_cost : bool then
          let disease_arg :=
            if negb (String.eqb disease "general") then disease
            else "diabetes" in
          cost_result <-
            invoke (Call_estimate_total_healthcare_cost disease_arg "private" 3 12)
              (estimate_total_healthcare_cost (cost_estimator self)
                 disease_arg "private" 3 12) ;;
          if String.eqb (cost_status cost_result) "success" then
            summary <- lift (getitem "summary" (summary cost_result)) ;;
            text <- lift (cost_text summary) ;;
            ret (append parts text)
          else ret (append parts cost_failure_text)
        else ret parts) ;;
     (* If nothing detected, give a gentle message *)
     if negb (wants_health || wants_hospital || wants_cost) then ret help_text
     else ret (join (nl ++ nl) parts))%trace.

End WithBuiltins.
End SupervisorAgent.

(** ** [repr] of a float

    The shortest decimal that reads back as the float, laid out the way
    [repr] does.  It instantiates [float_repr] where a concrete run is
    needed; no general statement below depends on it. *)

(** [10^t <= num / den], for positive [num] and [den]. *)
Definition pow10_le (t num den : Z) : bool :=
  if 0 <=? t then 10 ^ t * den <=? num else den <=? num * 10 ^ (- t).

(** The largest [t] with [10^t <= num / den], searched upwards from an
    underestimate taken from the binary logarithms. *)
Fixpoint floor_log10_from (fuel : nat) (t num den : Z) : Z :=
  match fuel with
  | O => t
  | S fuel' =>
      if pow10_le (t + 1) num den then floor_log10_from fuel' (t + 1) num den
      else t
  end.

Definition floor_log10 (num den : Z) : Z :=
  floor_log10_from 8 ((Z.log2 num - Z.log2 den - 1) * 30103 / 100000 - 1) num den.

(** The double written [d * 10^k]. *)
Definition float_of_decimal (d k : Z) : float :=
  if 0 <=? k then nearest_ratio false (d * 10 ^ k) 1
  else nearest_ratio false d (10 ^ (- k)).

Definition same_float (x y : float) : bool :=
  match x, y with
  | S754_finite _ m e, S754_finite _ m' e' => (Zpos m =? Zpos m') && (e =? e')
  | _, _ => false
  end.

(** The decimal [d * 10^k] of [p] digits nearest to [num / den] among those
    that read back as [x], if there is one. *)
Definition shortest_at (x : float) (num den t p : Z) : option (Z * Z) :=
  let k := t - p + 1 in
  let n' := if 0 <=? k then num else num * 10 ^ (- k) in
  let d' := if 0 <=? k then den * 10 ^ k else den in
  let lo := n' / d' in
  let hi := lo + 1 in
  let ok_lo := same_float (float_of_decimal lo k) x in
  let ok_hi := same_float (float_of_decimal hi k) x in
  if ok_lo && ok_hi then Some (round_half_even n' d', k)
  else if ok_lo then Some (lo, k)
  else if ok_hi then Some (hi, k)
  else None.

Fixpoint shortest_from (fuel : nat) (x : float) (num den t p : Z) : Z * Z :=
  match fuel with
  | O => (0, 0)
  | S fuel' =>
      match shortest_at x num den t p with
      | Some dk => dk
      | None => shortest_from fuel' x num den t (p + 1)
      end
  end.

(** Trailing zeros of the digits go into the exponent. *)
Fixpoint drop_zeros (fuel : nat) (d k : Z) : Z * Z :=
  match fuel with
  | O => (d, k)
  | S fuel' => if (d mod 10 =? 0) && negb (d =? 0) then drop_zeros fuel' (d / 10) (k + 1)
               else (d, k)
  end.

Fixpoint zeros (n : nat) : string :=
  match n with
  | O => ""
  | S n' => "0" ++ zeros n'
  end.

(** The digits [ds] with the decimal point after [decpt] of them, the way
    [repr] lays a float out. *)
Definition layout (ds : string) (decpt : Z) : string :=
  let n := Z.of_nat (String.length ds) in
  if (decpt <=? -4) || (16 <? decpt) then
    let e := decpt - 1 in
    let mant := match ds with
                | String c EmptyString => String c EmptyString
                | String c rest => String c ("." ++ rest)
                | EmptyString => ""
                end in
    let es := decimal (Z.abs e) in
    mant ++ "e" ++ (if e <? 0 then "-" else "+")
         ++ (if Z.abs e <? 10 then "0" else "") ++ es
  else if decpt <=? 0 then "0." ++ zeros (Z.to_nat (- decpt)) ++ ds
  else if n <=? decpt then ds ++ zeros (Z.to_nat (decpt - n)) ++ ".0"
  else substring 0 (Z.to_nat decpt) ds ++ "."
       ++ substring (Z.to_nat decpt) (Z.to_nat (n - decpt)) ds.

Definition float_repr_shortest (x : float) : string :=
  match x with
  | S754_zero s => if s then "-0.0" else "0.0"
  | S754_infinity s => if s then "-inf" else "inf"
  | S754_nan => "nan"
  | S754_finite s m e =>
      let num := if 0 <=? e then Zpos m * 2 ^ e else Zpos m in
      let den := if 0 <=? e then 1 else 2 ^ (- e) in
      let t := floor_log10 num den in
      let (d0, k0) := shortest_from 17 x num den t 1 in
      let (d, k) := drop_zeros 20 d0 k0 in
      let ds := decimal d in
      (if s then "-" else "") ++ layout ds (Z.of_nat (String.length ds) + k)
  end.

(** The built-ins on ASCII text. *)
#[export] Instance ascii_builtins : Builtins := {
  lower := lower_ascii;
  strip := strip_ascii;
  float_repr := float_repr_shortest
}.

(** ** The supervisor's cost collaborator as [__init__] builds it *)

Definition cost_estimator_agent `{Builtins} : SupervisorAgent.CostEstimator :=
  {| SupervisorAgent.estimate_total_healthcare_cost :=
       fun disease hospital_type hospital_days opd_visits_per_year =>
         (r <- CostEstimatorAgent.estimate_total_healthcare_cost
                 disease hospital_type hospital_days opd_visits_per_year ;;
          Ret {| SupervisorAgent.cost_status := CostEstimatorAgent.status r;
                 SupervisorAgent.summary := Some (CostEstimatorAgent.summary r) |})%res |}.

(** ** The adapters of [process], block by block

    Each numbered block of [process] is named here, without the call trace,
    so that the statements below can speak of a section on its own.
    [process_outcome] proves that [process] is their composition. *)

Section Adapters.
Context `{Builtins}.
Import SupervisorAgent.

(** The text block 1 appends for the dict [info]. *)
Definition health_section (info : DiseaseInfo) : res string :=
  if String.eqb (info_status info) "success" then
    (text <- getitem "information" (information info) ;;
     Ret (health_header ++ text))%res
  else Ret health_failure_text.

(** The text block 2 appends for the dict [r]. *)
Definition hospital_section (r : HospitalResult) : res string :=
  if String.eqb (hospital_status r) "success" then
    (hs <- getitem "hospitals" (hospitals r) ;; hospitals_text hs)%res
  else Ret hospital_failure_text.

(** The text block 3 appends for the dict [r]. *)
Definition cost_section (r : CostResult) : res string :=
  if String.eqb (cost_status r) "success" then
    (s <- getitem "summary" (summary r) ;; cost_text s)%res
  else Ret cost_failure_text.

(** The arguments the blocks pass to the collaborators. *)
Definition health_topic (query disease : string) : string :=
  if String.eqb disease "general" then query else disease.

Definition hospital_disease (disease : string) : option string :=
  if String.eqb disease "general" then None else Some disease.

Definition cost_disease (disease : string) : string :=
  if negb (String.eqb disease "general") then disease else "diabetes".

Definition health_call (self : t) (q : string) : res DiseaseInfo :=
  get_disease_info (health_advisor self)
    (health_topic q (MedicalTools.extract_disease_from_query q)).

Definition hospital_call (self : t) (q : string) : res HospitalResult :=
  find_hospitals (hospital_finder self)
    (hospital_disease (MedicalTools.extract_disease_from_query q))
    (MedicalTools.extract_location_from_query q) "Private" 5.

Definition cost_call (self : t) (q : string) : res CostResult :=
  estimate_total_healthcare_cost (cost_estimator self)
    (cost_disease (MedicalTools.extract_disease_from_query q)) "private" 3 12.

(** The sections a block contributes: none when its intent did not fire. *)
Definition run_block {R : Type} (fired : bool) (result : res R)
  (section : R -> res string) : res (list string) :=
  if fired then (r <- result ;; s <- section r ;; Ret [s])%res else Ret [].

(** The outcome of [process] on a trimmed, non-empty query [q]. *)
Definition compose (self : t) (q : string) : res string :=
  (h <- run_block (_needs_health_info q) (health_call self q) health_section ;;
   p <- run_block (_needs_hospital q) (hospital_call self q) hospital_section ;;
   c <- run_block (_needs_cost q) (cost_call self q) cost_section ;;
   if negb (_needs_health_info q || _needs_hospital q || _needs_cost q)
   then Ret help_text
   else Ret (join (nl ++ nl) (h ++ p ++ c)%list))%res.

(** The calls [process] makes before any collaborator is invoked. *)
Definition local_calls (q : string) : list call :=
  [ Call_needs_health_info q; Call_needs_hospital q; Call_needs_cost q;
    Call_extract_disease_from_query q; Call_extract_location_from_query q ].

(** Whether a call goes to one of the three collaborators. *)
Definition is_adapter_call (c : call) : bool :=
  match c with
  | Call_get_disease_info _ => true
  | Call_find_hospitals _ _ _ _ => true
  | Call_estimate_total_healthcare_cost _ _ _ _ => true
  | _ => false
  end.

End Adapters.

(** ** [agents/health_advisor.py] *)

(** [str(e)] for an exception. *)
Definition exn_str (e : exn) : string :=
  match e with
  | KeyError key => "'" ++ key ++ "'"
  | OverflowError msg => msg
  | ZeroDivisionError msg => msg
  | ValueError msg => msg
  | ExternalError msg => msg
  end.

(** A falsy [Optional[str]]: [None] or the empty string. *)
Definition falsy (s : option string) : bool :=
  match s with
  | None => true
  | Some s => String.eqb s ""
  end.

Module HealthAdvisorAgent.

(** [self]: the chat model, seen through [self.llm.invoke(prompt).content]. *)
Record t : Type := {
  llm_invoke : string -> res string
}.

(** The dict of [get_disease_info]: ["information"] on success, ["error"]
    otherwise. *)
Record DiseaseInfo : Type := {
  status : string;
  disease : string;
  information : option string;
  error : option string
}.

Section WithModel.
(** The constructor of the chat model, for an API key. *)
Variable ChatGoogleGenerativeAI : string -> res (string -> res string).

(** [__init__(api_key)], in an environment where [GOOGLE_API_KEY] is
    [env_key]. *)
Definition init (api_key env_key : option string) : res t :=
  let api_key := if falsy api_key then env_key else api_key in
  match api_key with
  | Some key =>
      if String.eqb key "" then
        Raise (ValueError
                 "GOOGLE_API_KEY not found. Please set it in your .env file.")
      else
        (llm <- ChatGoogleGenerativeAI key ;; Ret {| llm_invoke := llm |})%res
  | None =>
      Raise (ValueError
               "GOOGLE_API_KEY not found. Please set it in your .env file.")
  end.

End WithModel.

(** The prompt of [get_disease_info], after its [.strip()]: the template
    starts with a line feed and ends with white space, the name stands
    inside. *)
Definition disease_prompt (disease_name : string) : string :=
  "You are a medical information assistant." ++ nl
  ++ nl
  ++ "Provide comprehensive information about the disease: " ++ disease_name ++ nl
  ++ nl
  ++ "Answer in this structure:" ++ nl
  ++ nl
  ++ "1. Overview:" ++ nl
  ++ "- 2–3 short sentences about what this disease is." ++ nl
  ++ nl
  ++ "2. Common Symptoms:" ++ nl
  ++ "- Bullet list of 5–7 common symptoms." ++ nl
  ++ nl
  ++ "3. Risk Factors:" ++ nl
  ++ "- Bullet list of important risk factors." ++ nl
  ++ nl
  ++ "4. Prevention & Lifestyle Tips:" ++ nl
  ++ "- 4–6 practical tips (diet, exercise, habits)." ++ nl
  ++ nl
  ++ "5. When to See a Doctor:" ++ nl
  ++ "- Clear guidance when a patient should visit a doctor or emergency." ++ nl
  ++ nl
  ++ "Keep the language simple and patient‑friendly." ++ nl
  ++ "Use Indian healthcare context where helpful." ++ nl
  ++ "Do NOT give medication names or prescriptions.".

Definition get_disease_info (self : t) (disease_name : string) : DiseaseInfo :=
  let prompt := disease_prompt disease_name in
  match llm_invoke self prompt with
  | Ret content =>
      {| status := "success"; disease := disease_name;
         information := Some content; error := None |}
  | Raise e =>
      {| status := "error"; disease := disease_name;
         information := None; error := Some (exn_str e) |}
  end.

End HealthAdvisorAgent.

(** ** [agents/hospital_finder.py] *)

Module HospitalFinderAgent.

(** A row of the hospital frame, without missing values. *)
Record Row : Type := {
  Hospital_Name : string;
  City : string;
  State : string;
  Hospital_Type : string;
  Specialties : string;
  Beds : Z;
  Contact : string
}.

(** [_create_sample_data()]. *)
Definition sample_data : list Row :=
  [ {| Hospital_Name := "Apollo Hospitals"; City := "Delhi"; State := "Delhi";
       Hospital_Type := "Private";
       Specialties := "Cardiology, Oncology, Neurology, Endocrinology";
       Beds := 500; Contact := "+91-11-47444444" |};
    {| Hospital_Name := "Max Healthcare"; City := "Delhi"; State := "Delhi";
       Hospital_Type := "Private";
       Specialties := "Cardiology, Orthopedics, Pediatrics, General Medicine";
       Beds := 450; Contact := "+91-11-45018000" |};
    {| Hospital_Name := "Fortis Healthcare"; City := "Mumbai";
       State := "Maharashtra"; Hospital_Type := "Private";
       Specialties := "General, Trauma, Surgery, Orthopedics";
       Beds := 350; Contact := "+91-22-67676767" |};
    {| Hospital_Name := "AIIMS Delhi"; City := "Delhi"; State := "Delhi";
       Hospital_Type := "Government";
       Specialties := "Teaching Hospital, All Specialties";
       Beds := 1600; Contact := "+91-11-26165050" |};
    {| Hospital_Name := "Lilavati Hospital"; City := "Mumbai";
       State := "Maharashtra"; Hospital_Type := "Private";
       Specialties := "Cardiology, Gastroenterology, Nephrology";
       Beds := 600; Contact := "+91-22-68644444" |};
    {| Hospital_Name := "Hinduja Hospital"; City := "Mumbai";
       State := "Maharashtra"; Hospital_Type := "Private";
       Specialties := "Cardiology, Urology, Neurology, Oncology";
       Beds := 700; Contact := "+91-22-67888888" |} ].

(** An entry of the ["hospitals"] list. *)
Record Entry : Type := {
  name : string;
  city : string;
  state : string;
  type : string;
  specialties : string;
  beds : Z;
  contact : string
}.

Record Criteria : Type := {
  criteria_disease : option string;
  criteria_location : option string;
  criteria_hospital_type : option string
}.

(** The dict of [find_hospitals]: ["message"] when nothing is found,
    ["found_count"] and ["hospitals"] otherwise. *)
Record Result : Type := {
  status : string;
  message : option string;
  found_count : option Z;
  hospitals : option (list Entry);
  criteria : Criteria
}.

(** [df.head(n)]: the first [n] rows, or all but the last [-n] for a
    negative [n]. *)
Definition head {A : Type} (n : Z) (df : list A) : list A :=
  if 0 <=? n then firstn (Z.to_nat n) df
  else firstn (Z.to_nat (Z.of_nat (List.length df) + n)) df.

Definition entry_of_row (row : Row) : Entry :=
  {| name := Hospital_Name row; city := City row; state := State row;
     type := Hospital_Type row; specialties := Specialties row;
     beds := Beds row; contact := Contact row |}.

Section WithRegex.
(** [Series.str.contains(pat, case=False, na=False)]: the pattern is
    compiled once, which can raise, and then searched for in each cell. *)
Variable str_contains : string -> res (string -> bool).

(** [__init__]: [csv] is [None] when the file does not exist, else the
    outcome of [pd.read_csv], a frame or an exception; without a file the
    sample is used. *)
Definition init (csv : option (res (list Row))) : res (list Row) :=
  match csv with
  | Some read => read
  | None => Ret sample_data
  end.

Definition find_hospitals (hospitals_df : list Row)
  (disease location hospital_type : option string) (top_n : Z) : res Result :=
  let df := hospitals_df in
  (df <- match location with
         | Some pat =>
             if String.eqb pat "" then Ret df
             else (m <- str_contains pat ;;
                   Ret (filter (fun row => m (City row)) df))
         | None => Ret df
         end ;;
   df <- match hospital_type with
         | Some pat =>
             if String.eqb pat "" then Ret df
             else (m <- str_contains pat ;;
                   Ret (filter (fun row => m (Hospital_Type row)) df))
         | None => Ret df
         end ;;
   df <- match disease with
         | Some pat =>
             if String.eqb pat "" then Ret df
             else (m <- str_contains pat ;;
                   private <- str_contains "Private" ;;
                   Ret (filter (fun row => m (Specialties row)
                                           || private (Hospital_Type row)) df))
         | None => Ret df
         end ;;
   let criteria :=
     {| criteria_disease := disease; criteria_location := location;
        criteria_hospital_type := hospital_type |} in
   match df with
   | [] =>
       Ret {| status := "not_found";
              message := Some "No hospitals found for given criteria.";
              found_count := None; hospitals := None; criteria := criteria |}
   | _ =>
       let results := map entry_of_row (head top_n df) in
       Ret {| status := "success"; message := None;
              found_count := Some (Z.of_nat (List.length results));
              hospitals := Some results; criteria := criteria |}
   end)%res.

End WithRegex.
End HospitalFinderAgent.

(** ** The supervisor as [SupervisorAgent.__init__] builds it *)

Definition health_advisor_agent (agent : HealthAdvisorAgent.t)
  : SupervisorAgent.HealthAdvisor :=
  {| SupervisorAgent.get_disease_info := fun disease_name =>
       let r := HealthAdvisorAgent.get_disease_info agent disease_name in
       Ret {| SupervisorAgent.info_status := HealthAdvisorAgent.status r;
              SupervisorAgent.information :=
                HealthAdvisorAgent.information r |} |}.

Definition hospital_entry_view (e : HospitalFinderAgent.Entry)
  : SupervisorAgent.Hospital :=
  {| SupervisorAgent.name := HospitalFinderAgent.name e;
     SupervisorAgent.city := HospitalFinderAgent.city e;
     SupervisorAgent.state := HospitalFinderAgent.state e;
     SupervisorAgent.type := HospitalFinderAgent.type e;
     SupervisorAgent.specialties := HospitalFinderAgent.specialties e;
     SupervisorAgent.beds := HospitalFinderAgent.beds e;
     SupervisorAgent.contact := HospitalFinderAgent.contact e |}.

Definition hospital_finder_agent
  (str_contains : string -> res (string -> bool))
  (hospitals_df : list HospitalFinderAgent.Row)
  : SupervisorAgent.HospitalFinder :=
  {| SupervisorAgent.find_hospitals := fun disease location hospital_type top_n =>
       (r <- HospitalFinderAgent.find_hospitals str_contains hospitals_df
               disease location (Some hospital_type) top_n ;;
        Ret {| SupervisorAgent.hospital_status := HospitalFinderAgent.status r;
               SupervisorAgent.hospitals :=
                 option_map (map hospital_entry_view)
                   (HospitalFinderAgent.hospitals r) |})%res |}.

(** [SupervisorAgent()]: the health advisor takes its key from the
    environment, then the hospital finder loads its frame; either can
    raise. *)
Definition supervisor_init `{Builtins}
  (ChatGoogleGenerativeAI : string -> res (string -> res string))
  (str_contains : string -> res (string -> bool))
  (env_key : option string)
  (csv : option (res (list HospitalFinderAgent.Row)))
  : res SupervisorAgent.t :=
  (advisor <- HealthAdvisorAgent.init ChatGoogleGenerativeAI None env_key ;;
   hospitals_df <- HospitalFinderAgent.init csv ;;
   Ret {| SupervisorAgent.health_advisor := health_advisor_agent advisor;
          SupervisorAgent.hospital_finder :=
            hospital_finder_agent str_contains hospitals_df;
          SupervisorAgent.cost_estimator := cost_estimator_agent |})%res.

(** ** [app.py]: the submit handler *)

Module App.

(** What the page shows for a submission. *)
Inductive display : Type :=
| Warning (msg : string)
| Error (msg : string)
| Answer (response_text : string).

(** [st.session_state]. *)
Record session : Type := {
  supervisor : option SupervisorAgent.t;
  history : list (string * string)     (* [(user, bot)] entries *)
}.

(** The start of the script: [SupervisorAgent()] under [try], [None] on
    any exception; an empty history. *)
Definition init_session (built : res SupervisorAgent.t) : session :=
  {| supervisor := match built with
                   | Ret sup => Some sup
                   | Raise _ => None
                   end;
     history := [] |}.

(** The body of [if submit:]. *)
Definition on_submit `{Builtins} (st : session) (query : string)
  : display * session :=
  if String.eqb (strip query) "" then
    (Warning "Please enter a question first.", st)
  else
    match supervisor st with
    | None =>
        (Error "SupervisorAgent is not initialized. Check your GOOGLE_API_KEY and imports.",
         st)
    | Some sup =>
        match SupervisorAgent.outcome (SupervisorAgent.process sup query) with
        | Ret response_text =>
            (Answer response_text,
             {| supervisor := supervisor st;
                history := (history st ++ [(query, response_text)])%list |})
        | Raise e =>
            (Answer ("Error while processing your question: " ++ exn_str e),
             st)
        end
    end.

End App.

(** ** Collaborators for concrete runs *)

Module Examples.
Import SupervisorAgent.

Definition apollo : Hospital :=
  {| name := "Apollo Hospitals"; city := "Delhi"; state := "Delhi";
     type := "Private";
     specialties := "Cardiology, Oncology, Neurology, Endocrinology";
     beds := 500; contact := "+91-11-47444444" |}.

(** A health advisor that answers every topic. *)
Definition advisor : HealthAdvisor :=
  {| get_disease_info := fun disease_name =>
       Ret {| info_status := "success";
              information := Some ("Overview of " ++ disease_name) |} |}.

(** A hospital finder with one result. *)
Definition finder : HospitalFinder :=
  {| find_hospitals := fun _ _ _ _ =>
       Ret {| hospital_status := "success"; hospitals := Some [apollo] |} |}.

(** A hospital finder whose lookup raises. *)
Definition raising_finder : HospitalFinder :=
  {| find_hospitals := fun _ _ _ _ =>
       Raise (ExternalError "hospital lookup failed") |}.

(** A cost estimator that returns the summary [s]. *)
Definition fixed_estimator (s : Summary) : CostEstimator :=
  {| estimate_total_healthcare_cost := fun _ _ _ _ =>
       Ret {| cost_status := "success"; summary := Some s |} |}.

Definition summary_1234 : Summary :=
  {| hospitalization := Int 1; annual_medicines := Int 2;
     annual_opd_visits := Int 3; estimated_annual_total := Int 4 |}.

Definition agents : t :=
  {| health_advisor := advisor; hospital_finder := finder;
     cost_estimator := cost_estimator_agent |}.

Definition agents_raising_finder : t :=
  {| health_advisor := advisor; hospital_finder := raising_finder;
     cost_estimator := cost_estimator_agent |}.

Definition agents_fixed_estimator : t :=
  {| health_advisor := advisor; hospital_finder := finder;
     cost_estimator := fixed_estimator summary_1234 |}.

(** A pattern without regular-expression operators, searched for without
    regard to case: a substring test on the lower-cased texts. *)
Definition plain_contains (pat : string) : res (string -> bool) :=
  Ret (fun cell => contains (lower_ascii pat) (lower_ascii cell)).

(** A chat model that answers every prompt, and one that is out of reach. *)
Definition answering_model : HealthAdvisorAgent.t :=
  {| HealthAdvisorAgent.llm_invoke := fun _ => Ret "Diabetes is a condition." |}.

Definition failing_model : HealthAdvisorAgent.t :=
  {| HealthAdvisorAgent.llm_invoke := fun _ =>
       Raise (ExternalError "503 service unavailable") |}.

(** The supervisor over the sample frame, with a given chat model. *)
Definition sample_supervisor (model : HealthAdvisorAgent.t) : t :=
  {| health_advisor := health_advisor_agent model;
     hospital_finder :=
       hospital_finder_agent plain_contains HospitalFinderAgent.sample_data;
     cost_estimator := cost_estimator_agent |}.

(** A hospital finder that reports success without a ["hospitals"] entry. *)
Definition finder_without_payload : HospitalFinder :=
  {| find_hospitals := fun _ _ _ _ =>
       Ret {| hospital_status := "success"; hospitals := None |} |}.

Definition agents_without_payload : t :=
  {| health_advisor := advisor; hospital_finder := finder_without_payload;
     cost_estimator := cost_estimator_agent |}.

End Examples.

(** [k] occurs in [q] as a contiguous substring. *)
Definition occurs_in (k q : string) : Prop :=
  exists pre post, q = pre ++ k ++ post.

(** The position of the first occurrence of [k] in [s]. *)
Definition position (k s : string) : option nat := index 0 k s.

(** [a] first occurs in [s] before [b] does. *)
Definition precedes (a b s : string) : Prop :=
  exists i j, position a s = Some i /\ position b s = Some j /\ (i < j)%nat.

(** * Properties *)

(** ** Strings *)

Lemma prefix_iff (k q : string) :
  prefix k q = true <-> exists post, q = k ++ post.
Proof.
  revert q. induction k as [|a k IH]; intros q.
  - split; [intros _; exists q; reflexivity | intros _; destruct q; reflexivity].
  - destruct q as [|b q]; simpl.
    + split; [discriminate | intros [post Hp]; discriminate].
    + destruct (ascii_dec a b) as [->|Hab].
      * rewrite IH. split; intros [post Hp]; exists post.
        -- now rewrite Hp.
        -- now inversion Hp.
      * split; [discriminate | intros [post Hp]; inversion Hp; congruence].
Qed.

Lemma contains_iff (k q : string) : contains k q = true <-> occurs_in k q.
Proof.
  unfold occurs_in. induction q as [|c q IH]; cbn [contains].
  - destruct (prefix k "") eqn:Hp.
    + split; [intros _ | reflexivity].
      apply prefix_iff in Hp. destruct Hp as [post Hp].
      exists "", post. exact Hp.
    + split; [discriminate | intros (pre & post & Hq)].
      destruct pre; simpl in Hq.
      * assert (prefix k "" = true) by (apply prefix_iff; eauto). congruence.
      * discriminate.
  - destruct (prefix k (String c q)) eqn:Hp.
    + split; [intros _ | reflexivity].
      apply prefix_iff in Hp. destruct Hp as [post Hp].
      exists "", post. exact Hp.
    + rewrite IH. split; intros (pre & post & Hq).
      * exists (String c pre), post. simpl. now rewrite Hq.
      * destruct pre as [|c' pre]; simpl in Hq.
        -- assert (prefix k (String c q) = true) by (apply prefix_iff; eauto).
           congruence.
        -- inversion Hq. eauto.
Qed.

Lemma contains_false_iff (k q : string) :
  contains k q = false <-> ~ occurs_in k q.
Proof.
  rewrite <- contains_iff. destruct (contains k q); split; intros; congruence.
Qed.

Lemma any_in_false_iff (keywords : list string) (q : string) :
  any_in keywords q = false <-> forall k, In k keywords -> ~ occurs_in k q.
Proof.
  unfold any_in. induction keywords as [|k ks IH]; simpl.
  - split; [intros _ k [] | reflexivity].
  - rewrite orb_false_iff, IH, contains_false_iff. split.
    + intros [Hk Hks] k' [<-|Hin]; auto.
    + intros Hall. split; [apply Hall; now left | intros k' Hin; apply Hall; now right].
Qed.

Lemma any_in_true_iff (keywords : list string) (q : string) :
  any_in keywords q = true <-> exists k, In k keywords /\ occurs_in k q.
Proof.
  unfold any_in. rewrite existsb_exists.
  split; intros (k & Hin & Hk); exists k; split; auto; now apply contains_iff.
Qed.

Lemma join_snoc (sep : string) (parts : list string) (x : string) :
  exists pre, join sep (parts ++ [x]) = pre ++ x.
Proof.
  induction parts as [|p ps IH].
  - exists "". reflexivity.
  - destruct IH as [pre IH]. exists (p ++ sep ++ pre).
    change ((p :: ps) ++ [x])%list with (p :: (ps ++ [x]))%list.
    cbn [join]. destruct (ps ++ [x])%list eqn:E.
    + destruct ps; discriminate.
    + rewrite IH. clear. induction p; simpl; [|now f_equal].
      induction sep; simpl; [reflexivity | now f_equal].
Qed.

(** ** The loops of [MedicalTools] *)

Section Loops.

Lemma disease_loop_first (ds : list string) (q : string) :
  (exists d, In d ds /\ occurs_in d q) ->
  exists before after,
    ds = (before ++ MedicalTools.disease_loop ds q :: after)%list /\
    occurs_in (MedicalTools.disease_loop ds q) q /\
    forall d, In d before -> ~ occurs_in d q.
Proof.
  induction ds as [|d ds IH]; intros (d0 & Hin & Hocc).
  - destruct Hin.
  - cbn [MedicalTools.disease_loop]. destruct (contains d q) eqn:Hd.
    + exists [], ds. repeat split.
      * now apply contains_iff.
      * intros ? [].
    + destruct Hin as [<-|Hin].
      * apply contains_false_iff in Hd. contradiction.
      * destruct IH as (before & after & Heq & Ho & Hb); [eauto|].
        exists (d :: before), after. repeat split.
        -- cbn. now rewrite <- Heq.
        -- exact Ho.
        -- intros d' [<-|Hd']; [now apply contains_false_iff | now apply Hb].
Qed.

Lemma disease_loop_none (ds : list string) (q : string) :
  (forall d, In d ds -> ~ occurs_in d q) ->
  MedicalTools.disease_loop ds q = "general".
Proof.
  induction ds as [|d ds IH]; intros Hall; cbn [MedicalTools.disease_loop].
  - reflexivity.
  - assert (Hd : contains d q = false)
      by (apply contains_false_iff, Hall; now left).
    rewrite Hd. apply IH. intros d' Hin. apply Hall. now right.
Qed.

Lemma disease_loop_range (ds : list string) (q : string) :
  MedicalTools.disease_loop ds q = "general" \/
  In (MedicalTools.disease_loop ds q) ds.
Proof.
  induction ds as [|d ds IH]; cbn [MedicalTools.disease_loop].
  - now left.
  - destruct (contains d q).
    + right. now left.
    + destruct IH as [IH|IH]; [now left | right; now right].
Qed.

Lemma location_loop_first (items : list (string * string)) (q : string) :
  (exists key city, In (key, city) items /\ occurs_in key q) ->
  exists before key city after,
    items = (before ++ (key, city) :: after)%list /\
    occurs_in key q /\
    (forall k c, In (k, c) before -> ~ occurs_in k q) /\
    MedicalTools.location_loop items q = Some city.
Proof.
  induction items as [|[k c] items IH]; intros (k0 & c0 & Hin & Hocc).
  - destruct Hin.
  - cbn [MedicalTools.location_loop]. destruct (contains k q) eqn:Hk.
    + exists [], k, c, items. repeat split.
      * now apply contains_iff.
      * intros ? ? [].
    + destruct Hin as [Heq|Hin].
      * inversion Heq; subst. apply contains_false_iff in Hk. contradiction.
      * destruct IH as (before & key & city & after & Heq & Ho & Hb & Hr);
          [eauto|].
        exists ((k, c) :: before), key, city, after. repeat split.
        -- cbn. now rewrite <- Heq.
        -- exact Ho.
        -- intros k' c' [E|Hin']; [inversion E; subst; now apply contains_false_iff
                                   | now apply (Hb k' c')].
        -- exact Hr.
Qed.

Lemma location_loop_none (items : list (string * string)) (q : string) :
  (forall k c, In (k, c) items -> ~ occurs_in k q) ->
  MedicalTools.location_loop items q = None.
Proof.
  induction items as [|[k c] items IH]; intros Hall;
    cbn [MedicalTools.location_loop].
  - reflexivity.
  - assert (Hk : contains k q = false)
      by (apply contains_false_iff, (Hall k c); now left).
    rewrite Hk. apply IH. intros k' c' Hin. apply (Hall k' c'). now right.
Qed.

End Loops.

(** ** [process]: how a run unfolds *)

Ltac run_process :=
  cbn [SupervisorAgent.bind SupervisorAgent.invoke SupervisorAgent.ret
       SupervisorAgent.lift SupervisorAgent.trace SupervisorAgent.outcome
       snd fst res_bind negb orb getitem append app].

Ltac step_process :=
  match goal with
  | |- context [SupervisorAgent.get_disease_info ?a ?b] =>
      destruct (SupervisorAgent.get_disease_info a b) as [?info|?exc]
  | |- context [SupervisorAgent.find_hospitals ?a ?b ?c ?d ?n] =>
      destruct (SupervisorAgent.find_hospitals a b c d n) as [?found|?exc]
  | |- context [SupervisorAgent.estimate_total_healthcare_cost ?a ?b ?c ?d ?n] =>
      destruct (SupervisorAgent.estimate_total_healthcare_cost a b c d n)
        as [?est|?exc]
  | |- context [String.eqb (SupervisorAgent.info_status ?x) "success"] =>
      destruct (String.eqb (SupervisorAgent.info_status x) "success")
  | |- context [String.eqb (SupervisorAgent.hospital_status ?x) "success"] =>
      destruct (String.eqb (SupervisorAgent.hospital_status x) "success")
  | |- context [String.eqb (SupervisorAgent.cost_status ?x) "success"] =>
      destruct (String.eqb (SupervisorAgent.cost_status x) "success")
  | |- context [SupervisorAgent.information ?x] =>
      destruct (SupervisorAgent.information x)
  | |- context [SupervisorAgent.hospitals ?x] =>
      destruct (SupervisorAgent.hospitals x)
  | |- context [SupervisorAgent.summary ?x] =>
      destruct (SupervisorAgent.summary x)
  | |- context [SupervisorAgent.hospitals_text ?x] =>
      destruct (SupervisorAgent.hospitals_text x)
  | |- context [SupervisorAgent.cost_text ?x] =>
      destruct (SupervisorAgent.cost_text x)
  end.

Ltac unfold_adapters :=
  unfold compose, run_block, health_call, hospital_call, cost_call,
    health_section, hospital_section, cost_section,
    health_topic, hospital_disease, cost_disease.

Section Process.
Context {B : Builtins}.
Import SupervisorAgent.

Lemma process_empty (self : t) (query : string) :
  strip query = "" -> process self query = ([], Ret guidance_text).
Proof.
  intros E. unfold process. rewrite E. reflexivity.
Qed.

(** On a non-empty trimmed query the outcome of [process] is the
    composition of the three blocks. *)
Lemma process_outcome (self : t) (query : string) :
  strip query <> "" ->
  outcome (process self query) = compose self (strip query).
Proof.
  intros NE. unfold process.
  destruct (String.eqb_spec (strip query) ""); [contradiction|].
  set (q := strip query). unfold_adapters.
  destruct (_needs_health_info q), (_needs_hospital q), (_needs_cost q);
    run_process; repeat (step_process; run_process); reflexivity.
Qed.

(** The first five calls are the classification and the extraction, each
    made once, on the trimmed query. *)
Lemma process_trace_local (self : t) (query : string) :
  strip query <> "" ->
  exists rest,
    trace (process self query) = (local_calls (strip query) ++ rest)%list /\
    forall c, In c rest -> is_adapter_call c = true.
Proof.
  intros NE. unfold process.
  destruct (String.eqb_spec (strip query) ""); [contradiction|].
  set (q := strip query). unfold local_calls.
  destruct (_needs_health_info q), (_needs_hospital q), (_needs_cost q);
    run_process; repeat (step_process; run_process);
    eexists; (split; [reflexivity|]); cbn [In]; intros c Hc;
    repeat (destruct Hc as [<-|Hc]; [reflexivity|]); destruct Hc.
Qed.

End Process.

(** ** The properties the specification states *)

Section Claims.
Context {B : Builtins}.
Import SupervisorAgent.

(** C4.  A query that is empty after trimming gets exactly the guidance
    text ["Please enter a valid question."], and [process] makes no method
    call at all on the way: no intent classification, no entity extraction,
    no collaborator. *)
Theorem C4_empty_query_guidance (self : t) (query : string) :
  strip query = "" ->
  process self query = ([], Ret "Please enter a valid question.").
Proof.
  intros E. now rewrite process_empty.
Qed.

(** C5.  A query that is not empty after trimming and whose lower-cased
    text holds no keyword of the three sets gets exactly the help text; the
    only calls made are the three classifications and the two extractions,
    so no collaborator is invoked. *)
Theorem C5_no_keyword_help (self : t) (query : string) :
  strip query <> "" ->
  (forall k,
      In k (health_keywords ++ hospital_keywords ++ cost_keywords)%list ->
      ~ occurs_in k (lower (strip query))) ->
  process self query = (local_calls (strip query), Ret help_text) /\
  (forall c, In c (trace (process self query)) -> is_adapter_call c = false) /\
  occurs_in "- 'What are symptoms of diabetes?'" help_text /\
  occurs_in "- 'Find hospitals in Delhi for heart treatment'" help_text /\
  occurs_in "- 'How much does diabetes treatment cost per year?'" help_text.
Proof.
  intros NE Hnone.
  assert (Hh : _needs_health_info (strip query) = false).
  { apply any_in_false_iff. intros k Hk. apply Hnone.
    apply in_or_app. now left. }
  assert (Hp : _needs_hospital (strip query) = false).
  { apply any_in_false_iff. intros k Hk. apply Hnone.
    apply in_or_app. right. apply in_or_app. now left. }
  assert (Hc : _needs_cost (strip query) = false).
  { apply any_in_false_iff. intros k Hk. apply Hnone.
    apply in_or_app. right. apply in_or_app. now right. }
  assert (Hrun : process self query = (local_calls (strip query), Ret help_text)).
  { unfold process.
    destruct (String.eqb_spec (strip query) ""); [contradiction|].
    rewrite Hh, Hp, Hc. reflexivity. }
  split; [exact Hrun|]. split.
  - rewrite Hrun. cbn [trace fst local_calls In]. intros c Hin.
    repeat (destruct Hin as [<-|Hin]; [reflexivity|]). destruct Hin.
  - repeat split; apply contains_iff; vm_compute; reflexivity.
Qed.

(** C6.  [extract_disease_from_query] returns ["general"] or a label of the
    fixed list; when the lower-cased query holds a label it returns the
    first such label in list order; when it holds none it returns
    ["general"]. *)
Theorem C6_disease_is_first_label_or_general (query : string) :
  let d := MedicalTools.extract_disease_from_query query in
  (d = "general" \/ In d MedicalTools.diseases) /\
  ((exists l, In l MedicalTools.diseases /\ occurs_in l (lower query)) ->
   exists before after,
     MedicalTools.diseases = (before ++ d :: after)%list /\
     occurs_in d (lower query) /\
     forall l, In l before -> ~ occurs_in l (lower query)) /\
  ((forall l, In l MedicalTools.diseases -> ~ occurs_in l (lower query)) ->
   d = "general").
Proof.
  unfold MedicalTools.extract_disease_from_query. cbv zeta.
  split; [apply disease_loop_range|]. split.
  - apply disease_loop_first.
  - apply disease_loop_none.
Qed.

End Claims.

Section ClaimsOnExtractionAndOrder.
Context {B : Builtins}.
Import SupervisorAgent.

(** C7.  When the lower-cased query holds city aliases,
    [extract_location_from_query] returns the canonical city of the first
    matching alias in table order, wherever the aliases stand in the text:
    ["bombay ncr"] and ["ncr bombay"] both give Mumbai, the city of
    ["bombay"], which the table lists before ["ncr"].  A query holding no
    alias gives no location. *)
Theorem C7_location_first_alias_in_table_order (query : string) :
  ((exists key city,
       In (key, city) MedicalTools.cities /\ occurs_in key (lower query)) ->
   exists before key city after,
     MedicalTools.cities = (before ++ (key, city) :: after)%list /\
     occurs_in key (lower query) /\
     (forall k c, In (k, c) before -> ~ occurs_in k (lower query)) /\
     MedicalTools.extract_location_from_query query = Some city) /\
  ((forall k c, In (k, c) MedicalTools.cities -> ~ occurs_in k (lower query)) ->
   MedicalTools.extract_location_from_query query = None) /\
  @MedicalTools.extract_location_from_query ascii_builtins "bombay ncr"
    = Some "Mumbai" /\
  @MedicalTools.extract_location_from_query ascii_builtins "ncr bombay"
    = Some "Mumbai".
Proof.
  unfold MedicalTools.extract_location_from_query. cbv zeta.
  split; [apply location_loop_first|].
  split; [apply location_loop_none|].
  split; vm_compute; reflexivity.
Qed.

(** C8.  When all three intents fire, [process] returns a string exactly
    when the three collaborators return and their sections can be built,
    and the string is then the health section, a blank line, the hospital
    section, a blank line and the cost section.  Whatever intents fire, the
    sections of the fired ones are joined in the order health, hospital,
    cost. *)
Theorem C8_sections_in_fixed_order (self : t) (query : string) :
  strip query <> "" ->
  let q := strip query in
  (_needs_health_info q = true -> _needs_hospital q = true ->
   _needs_cost q = true ->
   forall out,
     outcome (process self query) = Ret out <->
     exists info found est health hospital cost,
       health_call self q = Ret info /\ health_section info = Ret health /\
       hospital_call self q = Ret found /\
       hospital_section found = Ret hospital /\
       cost_call self q = Ret est /\ cost_section est = Ret cost /\
       out = health ++ nl ++ nl ++ hospital ++ nl ++ nl ++ cost) /\
  (forall h p c,
     run_block (_needs_health_info q) (health_call self q) health_section
       = Ret h ->
     run_block (_needs_hospital q) (hospital_call self q) hospital_section
       = Ret p ->
     run_block (_needs_cost q) (cost_call self q) cost_section = Ret c ->
     (_needs_health_info q || _needs_hospital q || _needs_cost q) = true ->
     outcome (process self query) = Ret (join (nl ++ nl) (h ++ p ++ c)%list)).
Proof.
  intros NE q. split.
  - intros Hh Hp Hc out. rewrite process_outcome by exact NE.
    fold q. unfold compose, run_block. rewrite Hh, Hp, Hc.
    cbn [negb orb]. split.
    + destruct (health_call self q) as [info|e]; [|discriminate].
      cbn [res_bind].
      destruct (health_section info) as [health|e] eqn:E1; [|discriminate].
      cbn [res_bind].
      destruct (hospital_call self q) as [found|e]; [|discriminate].
      cbn [res_bind].
      destruct (hospital_section found) as [hospital|e] eqn:E2;
        [|discriminate].
      cbn [res_bind].
      destruct (cost_call self q) as [est|e]; [|discriminate].
      cbn [res_bind].
      destruct (cost_section est) as [cost|e] eqn:E3; [|discriminate].
      cbn [res_bind app join]. intros E. injection E as <-.
      exists info, found, est, health, hospital, cost.
      repeat split; assumption || reflexivity.
    + intros (info & found & est & health & hospital & cost
              & -> & Hs1 & -> & Hs2 & -> & Hs3 & ->).
      cbn [res_bind]. rewrite Hs1, Hs2, Hs3. reflexivity.
  - intros h p c Eh Ep Ec Hany. rewrite process_outcome by exact NE.
    fold q. unfold compose. rewrite Eh, Ep, Ec, Hany. reflexivity.
Qed.

(** C9.  The result of [process] is a function of the query and of what the
    collaborators return on the calls the query leads to: two supervisors
    whose collaborators give the same results on the calls of the fired
    intents produce the same calls and the same outcome. *)
Theorem C9_same_results_same_output (self1 self2 : t) (query : string) :
  let q := strip query in
  (_needs_health_info q = true -> health_call self1 q = health_call self2 q) ->
  (_needs_hospital q = true ->
   hospital_call self1 q = hospital_call self2 q) ->
  (_needs_cost q = true -> cost_call self1 q = cost_call self2 q) ->
  process self1 query = process self2 query.
Proof.
  intros q. subst q.
  unfold health_call, hospital_call, cost_call, health_topic,
    hospital_disease, cost_disease. intros E1 E2 E3.
  unfold process. destruct (strip query =? "")%string; [reflexivity|].
  destruct (_needs_health_info (strip query)),
    (_needs_hospital (strip query)), (_needs_cost (strip query));
    run_process;
    rewrite ?(E1 eq_refl), ?(E2 eq_refl), ?(E3 eq_refl); reflexivity.
Qed.

End ClaimsOnExtractionAndOrder.

Section ClaimsOnCollaborators.
Context {B : Builtins}.
Import SupervisorAgent.

Lemma process_stops_at_raising_finder (self : t) (query : string) (e : exn) :
  strip query <> "" ->
  _needs_hospital (strip query) = true ->
  hospital_call self (strip query) = Raise e ->
  forall d ht days v,
    ~ In (Call_estimate_total_healthcare_cost d ht days v)
         (trace (process self query)).
Proof.
  intros NE Hp Hr d ht days v. unfold process.
  destruct (String.eqb_spec (strip query) ""); [contradiction|].
  unfold hospital_call, hospital_disease in Hr. rewrite Hp.
  destruct (_needs_health_info (strip query)), (_needs_cost (strip query));
    run_process; rewrite ?Hr; run_process;
    repeat (step_process; run_process); cbn [In]; intuition discriminate.
Qed.

Lemma process_stops_at_raising_advisor (self : t) (query : string) (e : exn) :
  strip query <> "" ->
  _needs_health_info (strip query) = true ->
  health_call self (strip query) = Raise e ->
  process self query
  = ((local_calls (strip query)
      ++ [Call_get_disease_info
            (health_topic (strip query)
               (MedicalTools.extract_disease_from_query (strip query)))])%list,
     Raise e).
Proof.
  intros NE Hh Hr. unfold process.
  destruct (String.eqb_spec (strip query) ""); [contradiction|].
  unfold health_call, health_topic in Hr. rewrite Hh.
  destruct (_needs_hospital (strip query)), (_needs_cost (strip query));
    run_process; rewrite Hr; reflexivity.
Qed.

(** C1, as the code has it.  On a query that is not blank [process]
    returns a string exactly when every block whose intent fired gets a
    dict from its collaborator and builds its section; the string is then
    the help text or the sections joined by blank lines.  A dict whose
    status is not ["success"] puts the fixed failure text of its section
    into that string and leaves the other sections as they are.  Nothing
    is caught: when the call of a fired intent raises, be it the health
    advisor, the hospital finder or the cost estimator, after the blocks
    before it went through, the exception is the outcome of [process], and
    no collaborator is called after it. *)
Theorem C1_returns_unless_a_collaborator_raises (self : t) (query : string) :
  strip query <> "" ->
  let q := strip query in
  let health :=
    run_block (_needs_health_info q) (health_call self q) health_section in
  let hospital :=
    run_block (_needs_hospital q) (hospital_call self q) hospital_section in
  let cost := run_block (_needs_cost q) (cost_call self q) cost_section in
  (* a string, exactly when every fired block builds its section *)
  (forall out,
     outcome (process self query) = Ret out <->
     exists h p c,
       health = Ret h /\ hospital = Ret p /\ cost = Ret c /\
       out = if negb (_needs_health_info q || _needs_hospital q
                      || _needs_cost q)
             then help_text
             else join (nl ++ nl) (h ++ p ++ c)%list) /\
  (* a status other than success becomes the failure text of the section *)
  (forall info,
     _needs_health_info q = true -> health_call self q = Ret info ->
     info_status info <> "success" ->
     outcome (process self query) =
       (p <- hospital ;; c <- cost ;;
        Ret (join (nl ++ nl) ([health_failure_text] ++ p ++ c)%list))%res) /\
  (forall found h,
     _needs_hospital q = true -> hospital_call self q = Ret found ->
     hospital_status found <> "success" -> health = Ret h ->
     outcome (process self query) =
       (c <- cost ;;
        Ret (join (nl ++ nl) (h ++ [hospital_failure_text] ++ c)%list))%res) /\
  (forall est h p,
     _needs_cost q = true -> cost_call self q = Ret est ->
     cost_status est <> "success" -> health = Ret h -> hospital = Ret p ->
     outcome (process self query) =
       Ret (join (nl ++ nl) (h ++ p ++ [cost_failure_text])%list)) /\
  (* an exception of any collaborator escapes *)
  (forall e,
     _needs_health_info q = true -> health_call self q = Raise e ->
     process self query =
       ((local_calls q
         ++ [Call_get_disease_info
               (health_topic q (MedicalTools.extract_disease_from_query q))])%list,
        Raise e)) /\
  (forall e h,
     _needs_hospital q = true -> health = Ret h ->
     hospital_call self q = Raise e ->
     outcome (process self query) = Raise e /\
     forall d ht days v,
       ~ In (Call_estimate_total_healthcare_cost d ht days v)
            (trace (process self query))) /\
  (forall e h p,
     _needs_cost q = true -> health = Ret h -> hospital = Ret p ->
     cost_call self q = Raise e ->
     outcome (process self query) = Raise e).
Proof.
  intros NE q health hospital cost.
  assert (Hout : outcome (process self query) =
                 (h <- health ;; p <- hospital ;; c <- cost ;;
                  if negb (_needs_health_info q || _needs_hospital q
                           || _needs_cost q)
                  then Ret help_text
                  else Ret (join (nl ++ nl) (h ++ p ++ c)%list))%res)
    by (rewrite process_outcome by exact NE; reflexivity).
  split; [|split; [|split; [|split; [|split; [|split]]]]].
  - intros out. rewrite Hout. split.
    + destruct health as [h|e]; [|discriminate].
      destruct hospital as [p|e]; [|discriminate].
      destruct cost as [c|e]; [|discriminate].
      cbn [res_bind]. intros E. exists h, p, c. repeat split.
      destruct (negb _); now injection E as <-.
    + intros (h & p & c & -> & -> & -> & ->). cbn [res_bind].
      now destruct (negb _).
  - intros info Hfired Hcall Hstatus. rewrite Hout.
    subst health. unfold run_block at 1. rewrite Hfired, Hcall.
    cbn [res_bind]. unfold health_section.
    destruct (String.eqb_spec (info_status info) "success"); [contradiction|].
    reflexivity.
  - intros found h Hfired Hcall Hstatus Hh. rewrite Hout, Hh.
    cbn [res_bind]. subst hospital. unfold run_block at 1.
    rewrite Hfired, Hcall. cbn [res_bind]. unfold hospital_section.
    destruct (String.eqb_spec (hospital_status found) "success");
      [contradiction|].
    cbn [res_bind]. rewrite orb_true_r. reflexivity.
  - intros est h p Hfired Hcall Hstatus Hh Hp. rewrite Hout, Hh, Hp.
    cbn [res_bind]. subst cost. unfold run_block. rewrite Hfired, Hcall.
    cbn [res_bind]. unfold cost_section.
    destruct (String.eqb_spec (cost_status est) "success"); [contradiction|].
    cbn [res_bind]. rewrite !orb_true_r. reflexivity.
  - intros e Hfired Hcall.
    now apply process_stops_at_raising_advisor.
  - intros e h Hfired Hh Hcall. split.
    + rewrite Hout, Hh. cbn [res_bind]. subst hospital.
      unfold run_block at 1. rewrite Hfired, Hcall. reflexivity.
    + now apply process_stops_at_raising_finder with (e := e).
  - intros e h p Hfired Hh Hp Hcall. rewrite Hout, Hh, Hp.
    cbn [res_bind]. subst cost. unfold run_block. rewrite Hfired, Hcall.
    reflexivity.
Qed.

(** C3, as the code has it.  When the cost intent fires and the estimator
    returns status ["success"] with the summary [s], the cost section is the
    header line followed by four rupee lines in the order annual medicines,
    annual OPD visits, hospitalization, estimated annual total, each value
    being the formatted entry of [s].  Every string [process] returns then
    ends with this section; when no other intent fired and the four values
    can be formatted, [process] returns exactly this section. *)
Theorem C3_cost_section_lines (self : t) (query : string) (s : Summary) :
  let q := strip query in
  let body medicines opd stay total :=
    "💰 COST ESTIMATES" ++ nl
    ++ "- Annual Medicines: ₹" ++ medicines ++ nl
    ++ "- Annual OPD Visits: ₹" ++ opd ++ nl
    ++ "- Hospitalization (approx): ₹" ++ stay ++ nl
    ++ "- Estimated Annual Total: ₹" ++ total ++ nl in
  q <> "" ->
  _needs_cost q = true ->
  cost_call self q = Ret {| cost_status := "success"; summary := Some s |} ->
  (forall out,
     outcome (process self query) = Ret out ->
     exists medicines opd stay total pre,
       num_format (annual_medicines s) = Ret medicines /\
       num_format (annual_opd_visits s) = Ret opd /\
       num_format (hospitalization s) = Ret stay /\
       num_format (estimated_annual_total s) = Ret total /\
       out = pre ++ body medicines opd stay total) /\
  (forall medicines opd stay total,
     _needs_health_info q = false -> _needs_hospital q = false ->
     num_format (annual_medicines s) = Ret medicines ->
     num_format (annual_opd_visits s) = Ret opd ->
     num_format (hospitalization s) = Ret stay ->
     num_format (estimated_annual_total s) = Ret total ->
     outcome (process self query) = Ret (body medicines opd stay total)).
Proof.
  intros q body NE Hc Hr.
  rewrite process_outcome by exact NE. fold q. unfold compose.
  rewrite Hc, Hr.
  assert (Hcost : run_block true
                    (Ret {| cost_status := "success"; summary := Some s |})
                    cost_section
                  = (text <- cost_text s ;; Ret [text])%res) by reflexivity.
  rewrite Hcost. unfold cost_text. rewrite !orb_true_r. cbn [negb].
  split.
  - intros out.
    destruct (run_block (_needs_health_info q) _ _) as [h|e]; [|discriminate].
    destruct (run_block (_needs_hospital q) _ _) as [p|e]; [|discriminate].
    cbn [res_bind].
    destruct (num_format (annual_medicines s)) as [medicines|e];
      [|discriminate].
    destruct (num_format (annual_opd_visits s)) as [opd|e]; [|discriminate].
    destruct (num_format (hospitalization s)) as [stay|e]; [|discriminate].
    destruct (num_format (estimated_annual_total s)) as [total|e];
      [|discriminate].
    cbn [res_bind]. intros E. injection E as <-.
    rewrite app_assoc.
    destruct (join_snoc (nl ++ nl) (h ++ p)%list
                (body medicines opd stay total)) as [pre Hpre].
    exists medicines, opd, stay, total, pre.
    repeat (split; [reflexivity|]). exact Hpre.
  - intros medicines opd stay total Hh Hp Hm Ho Hs Ht.
    rewrite Hh, Hp, Hm, Ho, Hs, Ht. reflexivity.
Qed.

End ClaimsOnCollaborators.

(** ** The cost estimator and the conversion to [float] *)

Section CostEstimator.
Context {B : Builtins}.
Import CostEstimatorAgent.

Lemma float_of_int_in_range (z : Z) :
  Z.abs z < float_limit -> float_of_int z = Ret (nearest_float z).
Proof.
  intros Hz. unfold float_of_int.
  now apply Z.ltb_lt in Hz as ->.
Qed.

Lemma float_of_int_out_of_range (z : Z) :
  float_limit <= Z.abs z ->
  float_of_int z = Raise (OverflowError "int too large to convert to float").
Proof.
  intros Hz. unfold float_of_int.
  now apply Z.ltb_ge in Hz as ->.
Qed.

Lemma float_limit_bound : 8000 * 10 ^ 300 < float_limit.
Proof. apply Z.ltb_lt. vm_compute. reflexivity. Qed.

Lemma per_day_bounds (hospital_type : string) :
  350 <= dict_get_default (dict_get_default room_costs hospital_type []) "per_day" 1000 <= 8000.
Proof.
  unfold room_costs, dict_get_default. cbn [dict_get].
  repeat match goal with
  | |- context [String.eqb ?a hospital_type] => destruct (String.eqb a hospital_type)
  end; cbn; lia.
Qed.

Lemma opd_bounds (hospital_type : string) :
  94 <= dict_get_default (dict_get_default room_costs hospital_type []) "opd" 300 <= 1500.
Proof.
  unfold room_costs, dict_get_default. cbn [dict_get].
  repeat match goal with
  | |- context [String.eqb ?a hospital_type] => destruct (String.eqb a hospital_type)
  end; cbn; lia.
Qed.

Lemma annual_medicine_bounds (disease : string) :
  let r := calculate_annual_medicine_cost disease in
  0 <= (if String.eqb (medicine_status r) "success" then medicine_annual_total r 0 else 0) <= 30000.
Proof.
  unfold calculate_annual_medicine_cost, medicine_costs. cbn [dict_get].
  repeat match goal with
  | |- context [String.eqb ?a (lower disease)] => destruct (String.eqb a (lower disease))
  end; cbn; lia.
Qed.

Lemma estimate_in_range (disease hospital_type : string) (hospital_days opd_visits_per_year : Z) :
  hospital_days <= 0 \/ (hospital_days <= 10 ^ 300 /\ Z.abs opd_visits_per_year <= 10 ^ 300) ->
  exists r,
    estimate_total_healthcare_cost disease hospital_type hospital_days
      opd_visits_per_year = Ret r /\
    status r = "success" /\
    (dict_get medicine_costs (lower disease) = None ->
     annual_medicines (summary r) = Int 0).
Proof.
  intros Hrange. unfold estimate_total_healthcare_cost.
  pose proof (per_day_bounds hospital_type) as Hpd.
  pose proof (opd_bounds hospital_type) as Hopd.
  pose proof (annual_medicine_bounds disease) as Hmed. cbv zeta in Hmed.
  pose proof float_limit_bound as Hlim.
  assert (Hunknown : dict_get medicine_costs (lower disease) = None ->
                     (if String.eqb
                           (medicine_status (calculate_annual_medicine_cost disease))
                           "success"
                      then medicine_annual_total
                             (calculate_annual_medicine_cost disease) 0
                      else 0) = 0).
  { intros Hnone. unfold calculate_annual_medicine_cost. rewrite Hnone.
    reflexivity. }
  set (med := if String.eqb _ "success" then _ else 0) in *.
  set (o := dict_get_default _ "opd" 300) in *.
  destruct (0 <? hospital_days) eqn:Hd.
  - apply Z.ltb_lt in Hd. destruct Hrange as [Hneg|[Hdays Hvis]]; [lia|].
    unfold calculate_hospitalization_cost.
    set (cpd := dict_get_default _ "per_day" 1000) in *.
    set (T := 10 ^ 300) in *.
    assert (HT : 0 < T) by (subst T; apply Z.pow_pos_nonneg; lia).
    rewrite Z.max_l by lia.
    assert (H1 : float_of_int (cpd * hospital_days) = Ret (nearest_float (cpd * hospital_days))).
    { apply float_of_int_in_range. nia. }
    assert (H2 : float_of_int 0 = Ret (nearest_float 0)).
    { apply float_of_int_in_range. cbn. lia. }
    assert (H3 : float_of_int hospital_days = Ret (nearest_float hospital_days)).
    { apply float_of_int_in_range. nia. }
    assert (H4 : float_of_int med = Ret (nearest_float med)).
    { apply float_of_int_in_range. lia. }
    assert (H5 : float_of_int (o * opd_visits_per_year) = Ret (nearest_float (o * opd_visits_per_year))).
    { apply float_of_int_in_range. nia. }
    assert (H6 : (hospital_days =? 0) = false) by (apply Z.eqb_neq; lia).
    unfold int_mul_float, int_add_float, float_add_int, float_div_int.
    rewrite H1, H2, H3, H6. cbn [res_bind fst snd total_cost num_round num_add float_add_int].
    unfold float_add_int. rewrite H4. cbn [res_bind num_add]. unfold float_add_int. rewrite H5.
    cbn [res_bind]. eexists. split; [reflexivity|]. split; [reflexivity|].
    intros Hnone. cbn [summary annual_medicines num_round].
    now rewrite Hunknown.
  - cbn [res_bind fst snd num_add]. eexists.
    split; [reflexivity|]. split; [reflexivity|].
    intros Hnone. cbn [summary annual_medicines num_round].
    now rewrite Hunknown.
Qed.

Lemma str_of_int_in_range (i : Z) :
  Z.abs i < 10 ^ int_max_str_digits -> str_of_int i = Ret (decimal i).
Proof.
  intros Hi. unfold str_of_int. now apply Z.ltb_lt in Hi as ->.
Qed.

Lemma str_of_int_out_of_range (i : Z) :
  10 ^ int_max_str_digits <= Z.abs i ->
  exists msg, str_of_int i = Raise (ValueError msg).
Proof.
  intros Hi. unfold str_of_int. apply Z.ltb_ge in Hi as ->. eexists.
  reflexivity.
Qed.

(** The estimate [process] asks for: three private days, twelve visits. *)
Lemma estimate_for_process (disease : string) :
  exists r medicines stay total,
    estimate_total_healthcare_cost disease "private" 3 12 = Ret r /\
    status r = "success" /\
    summary r = {| hospitalization := Float stay;
                   annual_medicines := Int medicines;
                   annual_opd_visits := Int 15012;
                   estimated_annual_total := Float total |} /\
    0 <= medicines <= 30000.
Proof.
  pose proof (annual_medicine_bounds disease) as Hmed. cbv zeta in Hmed.
  assert (Hstay : exists R x,
            calculate_hospitalization_cost "private" 3 0 = Ret R /\
            total_cost R = Float x).
  { eexists _, _. split; vm_compute; reflexivity. }
  destruct Hstay as (R & x & HR & Hx).
  unfold estimate_total_healthcare_cost.
  change (0 <? 3) with true. cbv iota. rewrite HR.
  cbn [res_bind fst snd]. rewrite Hx.
  change (dict_get_default (dict_get_default room_costs "private" []) "opd" 300
          * 12) with 15012.
  set (med := if String.eqb _ "success" then _ else 0) in *.
  cbn [num_add]. unfold float_add_int.
  rewrite (float_of_int_in_range med).
  2:{ assert (30000 < float_limit) by (vm_compute; reflexivity). lia. }
  cbn [res_bind num_add]. unfold float_add_int.
  rewrite (float_of_int_in_range 15012) by (vm_compute; reflexivity).
  cbn [res_bind]. eexists _, med, _, _.
  split; [reflexivity|]. split; [reflexivity|]. split; [reflexivity|].
  exact Hmed.
Qed.

(** The call [process] makes to the repository's estimator always comes
    back with status ["success"] and a summary that can be formatted. *)
Lemma cost_call_of_estimator_agent (self : SupervisorAgent.t) (q : string) :
  SupervisorAgent.cost_estimator self = cost_estimator_agent ->
  exists s text,
    cost_call self q =
    Ret {| SupervisorAgent.cost_status := "success";
           SupervisorAgent.summary := Some s |} /\
    SupervisorAgent.cost_text s = Ret text.
Proof.
  intros Hself. unfold cost_call. rewrite Hself.
  cbn [SupervisorAgent.estimate_total_healthcare_cost cost_estimator_agent].
  destruct (estimate_for_process
              (cost_disease (MedicalTools.extract_disease_from_query q)))
    as (r & m & stay & total & Hr & Hs & Hsum & Hm).
  rewrite Hr. cbn [res_bind]. rewrite Hs, Hsum.
  eexists _, _. split; [reflexivity|].
  unfold SupervisorAgent.cost_text.
  cbn [annual_medicines annual_opd_visits hospitalization
       estimated_annual_total num_format].
  rewrite (str_of_int_in_range m).
  2:{ assert (30000 < 10 ^ int_max_str_digits) by (vm_compute; reflexivity).
      lia. }
  rewrite (str_of_int_in_range 15012) by (vm_compute; reflexivity).
  reflexivity.
Qed.

Lemma cost_text_is_not_the_failure_text (s : Summary) (text : string) :
  SupervisorAgent.cost_text s = Ret text ->
  text <> SupervisorAgent.cost_failure_text.
Proof.
  unfold SupervisorAgent.cost_text.
  destruct (num_format (annual_medicines s)); [|discriminate].
  destruct (num_format (annual_opd_visits s)); [|discriminate].
  destruct (num_format (hospitalization s)); [|discriminate].
  destruct (num_format (estimated_annual_total s)); [|discriminate].
  cbn [res_bind]. intros E. injection E as <-.
  unfold SupervisorAgent.cost_failure_text, SupervisorAgent.cost_header.
  cbn [String.append]. intros E. discriminate E.
Qed.

(** C10, as the code has it.  For every disease and hospital type, and for
    a day count that is not positive or day and visit counts up to 10^300,
    [estimate_total_healthcare_cost] returns a dict with status
    ["success"], an unknown disease contributing zero medicine cost.  The
    call [process] makes is within this range, so with the repository's
    estimator the cost block always appends the cost lines and never the
    fixed failure text. *)
Theorem C10_estimate_succeeds_within_float_range
  (disease hospital_type : string) (hospital_days opd_visits_per_year : Z) :
  (hospital_days <= 0 \/
   (hospital_days <= 10 ^ 300 /\ Z.abs opd_visits_per_year <= 10 ^ 300) ->
   exists r,
     estimate_total_healthcare_cost disease hospital_type hospital_days
       opd_visits_per_year = Ret r /\
     status r = "success" /\
     (dict_get medicine_costs (lower disease) = None ->
      annual_medicines (summary r) = Int 0)) /\
  (forall (self : SupervisorAgent.t) (query : string),
     SupervisorAgent.cost_estimator self = cost_estimator_agent ->
     exists s est text,
       cost_call self (strip query) = Ret est /\
       SupervisorAgent.summary est = Some s /\
       SupervisorAgent.cost_text s = Ret text /\
       cost_section est = Ret text /\
       text <> SupervisorAgent.cost_failure_text).
Proof.
  split.
  - apply estimate_in_range.
  - intros self query Hself.
    destruct (cost_call_of_estimator_agent self (strip query) Hself)
      as (s & text & Hs & Htext).
    exists s. eexists. exists text. split; [exact Hs|].
    split; [reflexivity|]. split; [exact Htext|]. split.
    + unfold cost_section. cbn. exact Htext.
    + exact (cost_text_is_not_the_failure_text s text Htext).
Qed.

End CostEstimator.

(** ** Concrete runs, on ASCII queries *)

Section ConcreteRuns.
Import SupervisorAgent.

(** C2, as the code has it.  For the query ["Find hospitals in Delhi for
    heart disease treatment"] the hospital intent fires and so does the
    health intent, because the query holds the health keyword ["disease"];
    the cost intent does not.  The disease is ["heart disease"], the
    location Delhi, and the response is the health section followed by the
    hospital section; the cost estimator is not called. *)
Theorem C2_delhi_heart_disease_query (self : t) :
  let query := "Find hospitals in Delhi for heart disease treatment" in
  _needs_hospital query = true /\
  _needs_health_info query = true /\
  _needs_cost query = false /\
  MedicalTools.extract_disease_from_query query = "heart disease" /\
  MedicalTools.extract_location_from_query query = Some "Delhi" /\
  outcome (process self query) =
    (info <- get_disease_info (health_advisor self) "heart disease" ;;
     health <- health_section info ;;
     found <- find_hospitals (hospital_finder self)
                (Some "heart disease") (Some "Delhi") "Private" 5 ;;
     hospital <- hospital_section found ;;
     Ret (health ++ nl ++ nl ++ hospital))%res /\
  (forall d ht days v,
     ~ In (Call_estimate_total_healthcare_cost d ht days v)
          (trace (process self query))).
Proof.
  intros query.
  assert (Hq : strip query = query) by reflexivity.
  assert (Hp : _needs_hospital query = true) by reflexivity.
  assert (Hh : _needs_health_info query = true) by reflexivity.
  assert (Hc : _needs_cost query = false) by reflexivity.
  assert (Hd : MedicalTools.extract_disease_from_query query = "heart disease")
    by reflexivity.
  assert (Hl : MedicalTools.extract_location_from_query query = Some "Delhi")
    by reflexivity.
  repeat (split; [assumption|]). split.
  - rewrite process_outcome by (rewrite Hq; discriminate).
    rewrite Hq. unfold_adapters. rewrite Hp, Hh, Hc, Hd, Hl.
    cbn [String.eqb Ascii.eqb Bool.eqb negb orb andb].
    destruct (get_disease_info (health_advisor self) "heart disease")
      as [info|e]; [|reflexivity].
    cbn [res_bind].
    destruct (String.eqb (info_status info) "success");
      [destruct (information info)|]; cbn [res_bind getitem]; try reflexivity;
      (destruct (find_hospitals (hospital_finder self) (Some "heart disease")
                  (Some "Delhi") "Private" 5) as [found|e]; [|reflexivity]);
      cbn [res_bind];
      (destruct (String.eqb (hospital_status found) "success");
       [destruct (hospitals found) as [hs|]|]);
      cbn [res_bind getitem];
      try (destruct (hospitals_text hs)); reflexivity.
  - intros d ht days v. unfold process. rewrite Hq.
    change (String.eqb query "") with false. cbv iota.
    rewrite Hp, Hh, Hc. run_process.
    repeat (step_process; run_process); cbn [In]; intuition discriminate.
Qed.

(** The classification the specification gives for that query does not
    hold: the health intent fires. *)
Lemma C2_counterexample :
  let query := "Find hospitals in Delhi for heart disease treatment" in
  ~ (_needs_hospital query = true /\ _needs_health_info query = false).
Proof.
  intros query [_ H]. vm_compute in H. discriminate H.
Qed.

(** With a hospital lookup that raises, a query asking for health,
    hospital and cost gets no string: the exception is the outcome. *)
Lemma C1_counterexample :
  let query := "health info, best hospital and cost" in
  _needs_health_info query = true /\
  _needs_hospital query = true /\
  _needs_cost query = true /\
  outcome (process Examples.agents_raising_finder query)
    = Raise (ExternalError "hospital lookup failed") /\
  ~ (exists out,
        outcome (process Examples.agents_raising_finder query) = Ret out).
Proof.
  intros query. repeat split; try (vm_compute; reflexivity).
  intros [out H]. vm_compute in H. discriminate H.
Qed.

(** With a summary of 1 (hospitalization), 2 (medicines), 3 (OPD) and
    4 (total), the hospitalization line does not come first: it follows the
    medicines and the OPD lines. *)
Lemma C3_counterexample :
  exists out,
    _needs_cost "cost" = true /\
    outcome (process Examples.agents_fixed_estimator "cost") = Ret out /\
    out = "💰 COST ESTIMATES" ++ nl
          ++ "- Annual Medicines: ₹2" ++ nl
          ++ "- Annual OPD Visits: ₹3" ++ nl
          ++ "- Hospitalization (approx): ₹1" ++ nl
          ++ "- Estimated Annual Total: ₹4" ++ nl /\
    precedes "Annual Medicines" "Hospitalization" out /\
    ~ precedes "Hospitalization" "Annual Medicines" out.
Proof.
  eexists. split; [reflexivity|]. split; [vm_compute; reflexivity|].
  split; [vm_compute; reflexivity|]. split.
  - unfold precedes, position. eexists _, _.
    split; [vm_compute; reflexivity|]. split; [vm_compute; reflexivity|].
    vm_compute. lia.
  - intros (i & j & Hi & Hj & Hlt). unfold position in Hi, Hj.
    vm_compute in Hi, Hj. injection Hi as <-. injection Hj as <-. lia.
Qed.

(** A stay of 10^400 days makes the room charge too large for a float: the
    estimator raises instead of returning a dict. *)
Lemma C10_counterexample :
  CostEstimatorAgent.estimate_total_healthcare_cost
    "diabetes" "private" (10 ^ 400) 12
  = Raise (OverflowError "int too large to convert to float") /\
  ~ (exists r,
        CostEstimatorAgent.estimate_total_healthcare_cost
          "diabetes" "private" (10 ^ 400) 12 = Ret r /\
        CostEstimatorAgent.status r = "success").
Proof.
  assert (H : CostEstimatorAgent.estimate_total_healthcare_cost
                "diabetes" "private" (10 ^ 400) 12
              = Raise (OverflowError "int too large to convert to float"))
    by (vm_compute; reflexivity).
  split; [exact H|]. intros (r & Hr & _). rewrite H in Hr. discriminate Hr.
Qed.

End ConcreteRuns.

(** ** The theorems at concrete inputs *)

Section Witnesses.
Import SupervisorAgent.

Lemma C4_witness :
  process Examples.agents "   " = ([], Ret "Please enter a valid question.").
Proof.
  apply C4_empty_query_guidance. reflexivity.
Defined.

Lemma C5_witness :
  process Examples.agents "hello there"
  = (local_calls "hello there", Ret help_text).
Proof.
  refine (proj1 (C5_no_keyword_help Examples.agents "hello there" _ _)).
  - vm_compute. discriminate.
  - intros k Hk. apply contains_false_iff.
    cbn [health_keywords hospital_keywords cost_keywords app In] in Hk.
    repeat (destruct Hk as [<-|Hk]; [reflexivity|]). destruct Hk.
Defined.

Lemma C6_witness :
  exists before after,
    MedicalTools.diseases =
      (before ++ MedicalTools.extract_disease_from_query
                   "Asthma with diabetes" :: after)%list /\
    occurs_in (MedicalTools.extract_disease_from_query "Asthma with diabetes")
      (lower "Asthma with diabetes") /\
    forall l, In l before -> ~ occurs_in l (lower "Asthma with diabetes").
Proof.
  apply (proj1 (proj2 (C6_disease_is_first_label_or_general
                         "Asthma with diabetes"))).
  exists "asthma". split.
  - cbn. tauto.
  - apply contains_iff. reflexivity.
Defined.

Lemma C7_witness :
  exists before key city after,
    MedicalTools.cities = (before ++ (key, city) :: after)%list /\
    occurs_in key (lower "bombay ncr") /\
    (forall k c, In (k, c) before -> ~ occurs_in k (lower "bombay ncr")) /\
    MedicalTools.extract_location_from_query "bombay ncr" = Some city.
Proof.
  apply (proj1 (C7_location_first_alias_in_table_order "bombay ncr")).
  exists "ncr", "Delhi". split.
  - cbn. tauto.
  - apply contains_iff. reflexivity.
Defined.

Lemma C8_witness :
  exists h p c,
    outcome (process Examples.agents "diabetes symptoms, hospital and cost")
    = Ret (join (nl ++ nl) ([h] ++ [p] ++ [c])%list).
Proof.
  eexists _, _, _.
  refine (proj2 (C8_sections_in_fixed_order Examples.agents
                   "diabetes symptoms, hospital and cost" _) _ _ _ _ _ _ _).
  - vm_compute. discriminate.
  - vm_compute. reflexivity.
  - vm_compute. reflexivity.
  - vm_compute. reflexivity.
  - reflexivity.
Defined.

Lemma C9_witness :
  process Examples.agents "hospital in Delhi"
  = process Examples.agents_fixed_estimator "hospital in Delhi".
Proof.
  apply C9_same_results_same_output.
  - intros _. reflexivity.
  - intros _. reflexivity.
  - intros H. vm_compute in H. discriminate H.
Defined.

Lemma C1_witness :
  outcome (process Examples.agents_raising_finder
             "health info, best hospital and cost")
  = Raise (ExternalError "hospital lookup failed").
Proof.
  assert (NE : strip "health info, best hospital and cost" <> "")
    by (vm_compute; discriminate).
  destruct (C1_returns_unless_a_collaborator_raises
              Examples.agents_raising_finder
              "health info, best hospital and cost" NE)
    as (_ & _ & _ & _ & _ & Hfinder & _).
  eapply proj1, Hfinder.
  - reflexivity.
  - vm_compute. reflexivity.
  - reflexivity.
Defined.

Lemma C2_witness :
  exists text,
    hospitals_text [Examples.apollo] = Ret text /\
    outcome (process Examples.agents
               "Find hospitals in Delhi for heart disease treatment")
    = Ret (health_header ++ "Overview of heart disease" ++ nl ++ nl ++ text).
Proof.
  eexists. split; [vm_compute; reflexivity|].
  rewrite (proj1 (proj2 (proj2 (proj2 (proj2 (proj2
             (C2_delhi_heart_disease_query Examples.agents))))))).
  vm_compute. reflexivity.
Defined.

Lemma C3_witness :
  outcome (process Examples.agents_fixed_estimator "cost")
  = Ret ("💰 COST ESTIMATES" ++ nl
         ++ "- Annual Medicines: ₹2" ++ nl
         ++ "- Annual OPD Visits: ₹3" ++ nl
         ++ "- Hospitalization (approx): ₹1" ++ nl
         ++ "- Estimated Annual Total: ₹4" ++ nl).
Proof.
  refine (proj2 (C3_cost_section_lines Examples.agents_fixed_estimator "cost"
                   Examples.summary_1234 _ _ _) "2" "3" "1" "4" _ _ _ _ _ _).
  - vm_compute. discriminate.
  - reflexivity.
  - reflexivity.
  - reflexivity.
  - reflexivity.
  - vm_compute. reflexivity.
  - vm_compute. reflexivity.
  - vm_compute. reflexivity.
  - vm_compute. reflexivity.
Defined.

Lemma C10_witness :
  exists r,
    CostEstimatorAgent.estimate_total_healthcare_cost "flu" "private" 3 12
    = Ret r /\
    CostEstimatorAgent.status r = "success" /\
    (dict_get CostEstimatorAgent.medicine_costs (lower "flu") = None ->
     annual_medicines (CostEstimatorAgent.summary r) = Int 0).
Proof.
  apply (proj1 (C10_estimate_succeeds_within_float_range "flu" "private" 3 12)).
  right. split; apply Z.leb_le; vm_compute; reflexivity.
Defined.

End Witnesses.

(** * Further properties of the code *)

(** ** [process]: rendering and dispatch *)

Section Dispatch.
Context {B : Builtins}.
Import SupervisorAgent.

Lemma enumerate_snoc {A : Type} (start : Z) (xs : list A) (x : A) :
  enumerate start (xs ++ [x])
  = (enumerate start xs ++ [(start + Z.of_nat (List.length xs), x)])%list.
Proof.
  revert start. induction xs as [|y ys IH]; intros start.
  - cbn. now rewrite Z.add_0_r.
  - cbn [enumerate app List.length]. rewrite IH. cbn [app].
    replace (start + 1 + Z.of_nat (List.length ys))
      with (start + Z.of_nat (S (List.length ys))) by lia.
    reflexivity.
Qed.

Lemma hospital_loop_app (items items' : list (Z * Hospital)) (text : string) :
  hospital_loop (items ++ items') text
  = (text' <- hospital_loop items text ;; hospital_loop items' text')%res.
Proof.
  revert text. induction items as [|item items IH]; intros text.
  - reflexivity.
  - cbn [app hospital_loop].
    destruct (hospital_entry text item) as [text'|e]; [|reflexivity].
    cbn [res_bind]. apply IH.
Qed.

(** X1.  The hospital section numbers the hospitals from 1 in the order the
    collaborator returned them: an empty list gives the header alone, and a
    further hospital adds its block, numbered one past the count so far,
    after the text of the hospitals before it.  The number and the bed
    count are written in decimal when they have at most 4300 digits; a bed
    count of more digits makes the rendering raise [ValueError], and so
    does a failure on the hospitals before. *)
Theorem X1_hospitals_numbered_in_order (hs : list Hospital) (h : Hospital) :
  hospitals_text [] = Ret ("🏥 HOSPITAL RECOMMENDATIONS" ++ nl) /\
  (forall text,
     hospitals_text hs = Ret text ->
     Z.of_nat (List.length hs) + 1 < 10 ^ 4300 ->
     Z.abs (beds h) < 10 ^ 4300 ->
     hospitals_text (hs ++ [h]) =
     Ret (text ++
            (nl ++ decimal (Z.of_nat (List.length hs) + 1) ++ ". " ++ name h
                ++ " (" ++ city h ++ ", " ++ state h ++ ")"
             ++ nl ++ "   Type: " ++ type h
             ++ nl ++ "   Specialties: " ++ specialties h
             ++ nl ++ "   Beds: " ++ decimal (beds h)
             ++ nl ++ "   Contact: " ++ contact h ++ nl))) /\
  (forall text,
     hospitals_text hs = Ret text ->
     10 ^ 4300 <= Z.abs (beds h) ->
     exists msg, hospitals_text (hs ++ [h]) = Raise (ValueError msg)) /\
  (forall e,
     hospitals_text hs = Raise e -> hospitals_text (hs ++ [h]) = Raise e).
Proof.
  assert (Hsnoc : hospitals_text (hs ++ [h]) =
                  (text <- hospitals_text hs ;;
                   hospital_entry text (Z.of_nat (List.length hs) + 1, h))%res).
  { unfold hospitals_text. rewrite enumerate_snoc, hospital_loop_app.
    rewrite (Z.add_comm 1). destruct (hospital_loop _ _); [|reflexivity].
    cbn [res_bind hospital_loop].
    destruct (hospital_entry _ _); reflexivity. }
  split; [reflexivity|]. split; [|split].
  - intros text Htext Hnumber Hbeds. rewrite Hsnoc, Htext.
    cbn [res_bind hospital_entry].
    rewrite (str_of_int_in_range (Z.of_nat (List.length hs) + 1))
      by (unfold int_max_str_digits; lia).
    rewrite (str_of_int_in_range (beds h)) by exact Hbeds.
    reflexivity.
  - intros text Htext Hbeds. rewrite Hsnoc, Htext.
    cbn [res_bind hospital_entry].
    destruct (str_of_int_out_of_range (beds h) Hbeds) as [msg Hmsg].
    rewrite Hmsg.
    unfold str_of_int at 1. destruct (_ <? _); eexists; reflexivity.
  - intros e He. rewrite Hsnoc, He. reflexivity.
Qed.

(** The collaborator calls a query leads to, in the order of the blocks. *)
Lemma process_trace_planned (self : t) (query : string) :
  strip query <> "" ->
  let q := strip query in
  let d := MedicalTools.extract_disease_from_query q in
  let planned :=
    ((if _needs_health_info q
      then [Call_get_disease_info (health_topic q d)] else [])
     ++ (if _needs_hospital q
         then [Call_find_hospitals (hospital_disease d)
                 (MedicalTools.extract_location_from_query q) "Private" 5]
         else [])
     ++ (if _needs_cost q
         then [Call_estimate_total_healthcare_cost (cost_disease d)
                 "private" 3 12]
         else []))%list in
  (exists n, trace (process self query)
             = (local_calls q ++ firstn n planned)%list) /\
  (forall out, outcome (process self query) = Ret out ->
               trace (process self query) = (local_calls q ++ planned)%list).
Proof.
  intros NE q d planned. subst planned d. unfold process.
  destruct (String.eqb_spec (strip query) ""); [contradiction|].
  fold q. unfold local_calls, health_topic, hospital_disease, cost_disease.
  destruct (_needs_health_info q), (_needs_hospital q), (_needs_cost q);
    run_process; repeat (step_process; run_process);
    (split;
     [ first [ now exists 3%nat | now exists 2%nat
             | now exists 1%nat | now exists 0%nat ]
     | intros out Hout; first [reflexivity | discriminate Hout] ]).
Qed.


Lemma In_firstn {A : Type} (n : nat) (l : list A) (x : A) :
  In x (firstn n l) -> In x l.
Proof.
  revert l. induction n as [|n IH]; intros [|y l]; cbn; try tauto.
  intros [->|Hin]; [now left | right; now apply IH].
Qed.

(** X3.  When the lower-cased trimmed query holds no disease label, the
    health advisor is asked about the whole trimmed query, the hospital
    finder gets no disease, and the cost estimator is asked about
    ["diabetes"]. *)
Theorem X3_no_label_arguments (self : t) (query : string) :
  strip query <> "" ->
  let q := strip query in
  (forall l, In l MedicalTools.diseases -> ~ occurs_in l (lower q)) ->
  forall c, In c (trace (process self query)) ->
    match c with
    | Call_get_disease_info topic => topic = q
    | Call_find_hospitals dis loc ht n =>
        dis = None /\ loc = MedicalTools.extract_location_from_query q /\
        ht = "Private" /\ n = 5
    | Call_estimate_total_healthcare_cost dis ht days visits =>
        dis = "diabetes" /\ ht = "private" /\ days = 3 /\ visits = 12
    | _ => True
    end.
Proof.
  intros NE q Hnone c Hin.
  destruct (process_trace_planned self query NE) as [[n Hn] _].
  fold q in Hn. rewrite Hn in Hin.
  assert (Hd : MedicalTools.extract_disease_from_query q = "general")
    by (apply disease_loop_none; exact Hnone).
  rewrite Hd in Hin. apply in_app_or in Hin. destruct Hin as [Hin|Hin].
  - cbn [local_calls In] in Hin.
    repeat (destruct Hin as [<-|Hin]; [exact I|]). destruct Hin.
  - apply In_firstn in Hin.
    destruct (_needs_health_info q), (_needs_hospital q), (_needs_cost q);
      cbn in Hin;
      repeat (destruct Hin as [<-|Hin]; [repeat split|]); destruct Hin.
Qed.

Lemma occurs_in_weaken (k suffix q : string) :
  occurs_in (k ++ suffix) q -> occurs_in k q.
Proof.
  intros (pre & post & ->). exists pre, (suffix ++ post).
  f_equal. clear. induction k; simpl; [reflexivity | now f_equal].
Qed.

Lemma occurs_in_weaken_left (prefix k q : string) :
  occurs_in (prefix ++ k) q -> occurs_in k q.
Proof.
  intros (pre & post & ->). exists (pre ++ prefix), post.
  clear. induction pre; simpl.
  - induction prefix; simpl; [reflexivity | now f_equal].
  - now f_equal.
Qed.

(** X4.  Two keywords never decide a classification: a query holding
    ["symptoms"] holds ["symptom"], and one holding ["best hospital"] holds
    ["hospital"], so the health and the hospital intents fire exactly as
    they would without them. *)
Theorem X4_redundant_keywords (query : string) :
  _needs_health_info query =
    any_in ["what is"; "symptom"; "disease"; "bimari"; "health"; "info"]
      (lower query) /\
  _needs_hospital query =
    any_in ["hospital"; "doctor"; "where"; "admit"; "treatment"]
      (lower query).
Proof.
  unfold _needs_health_info, _needs_hospital, any_in,
    health_keywords, hospital_keywords. cbv zeta. cbn [existsb].
  split.
  - destruct (contains "symptoms" (lower query)) eqn:E.
    + assert (E' : contains "symptom" (lower query) = true).
      { apply contains_iff. apply (occurs_in_weaken "symptom" "s").
        now apply contains_iff. }
      rewrite E'. now rewrite !orb_true_r.
    + reflexivity.
  - destruct (contains "best hospital" (lower query)) eqn:E.
    + assert (E' : contains "hospital" (lower query) = true).
      { apply contains_iff. apply (occurs_in_weaken_left "best " "hospital").
        now apply contains_iff. }
      rewrite E'. reflexivity.
    + reflexivity.
Qed.

End Dispatch.

(** ** The cost estimator *)

Section CostEstimatorExtras.
Context {B : Builtins}.
Import CostEstimatorAgent.

(** X5.  A stay of one day or less, zero and negative day counts included,
    is billed as one day: every amount is that of a one-day stay, and only
    [days_admitted] still shows the count that was passed. *)
Theorem X5_short_stay_billed_as_one_day
  (hospital_type : string) (days procedure_cost : Z) :
  days <= 1 ->
  calculate_hospitalization_cost hospital_type days procedure_cost =
  (r <- calculate_hospitalization_cost hospital_type 1 procedure_cost ;;
   Ret {| hosp_status := hosp_status r;
          CostEstimatorAgent.hospital_type := CostEstimatorAgent.hospital_type r;
          days_admitted := days;
          breakdown := breakdown r;
          total_cost := total_cost r;
          average_per_day := average_per_day r |})%res.
Proof.
  intros Hd. unfold calculate_hospitalization_cost.
  rewrite (Z.max_r days 1) by lia. rewrite (Z.max_r 1 1) by lia.
  destruct (int_mul_float _ (float_lit 24 100)) as [m|e]; [|reflexivity].
  cbn [res_bind].
  destruct (int_mul_float _ (float_lit 10 100)) as [t|e]; [|reflexivity].
  cbn [res_bind].
  destruct (int_mul_float _ (float_lit 17 100)) as [f|e]; [|reflexivity].
  cbn [res_bind].
  destruct (int_mul_float _ (float_lit 39 100)) as [o|e]; [|reflexivity].
  cbn [res_bind].
  destruct (int_add_float _ m) as [s|e]; [|reflexivity].
  cbn [res_bind].
  destruct (float_add_int _ procedure_cost) as [total|e]; [|reflexivity].
  cbn [res_bind].
  destruct (float_div_int total 1) as [avg|e]; reflexivity.
Qed.

(** X6.  [calculate_hospitalization_cost] has two outcomes and no other.
    With the room charge [per_day * max(days, 1)] and the procedure cost
    inside the range of floats it returns status ["success"] and reports
    the room charge as the exact integer; with either of them outside that
    range it raises [OverflowError].  It never divides by zero. *)
Theorem X6_hospitalization_cost_outcome
  (hospital_type : string) (days procedure_cost : Z) :
  let per_day :=
    dict_get_default (dict_get_default room_costs hospital_type [])
      "per_day" 1000 in
  let room_total := per_day * Z.max days 1 in
  (room_total < float_limit -> Z.abs procedure_cost < float_limit ->
   exists r,
     calculate_hospitalization_cost hospital_type days procedure_cost = Ret r /\
     hosp_status r = "success" /\
     room_charges (breakdown r) = Int room_total /\
     days_admitted r = days) /\
  (float_limit <= room_total \/ float_limit <= Z.abs procedure_cost ->
   calculate_hospitalization_cost hospital_type days procedure_cost
   = Raise (OverflowError "int too large to convert to float")) /\
  (forall msg,
     calculate_hospitalization_cost hospital_type days procedure_cost
     <> Raise (ZeroDivisionError msg)).
Proof.
  intros per_day room_total.
  pose proof (per_day_bounds hospital_type) as Hpd. fold per_day in Hpd.
  assert (Hpos : 1 <= Z.max days 1 <= room_total) by (subst room_total; nia).
  assert (Hok : room_total < float_limit ->
                Z.abs procedure_cost < float_limit ->
                exists r,
                  calculate_hospitalization_cost hospital_type days
                    procedure_cost = Ret r /\
                  hosp_status r = "success" /\
                  room_charges (breakdown r) = Int room_total /\
                  days_admitted r = days).
  { intros Hroom Hproc. unfold calculate_hospitalization_cost.
    fold per_day. fold room_total.
    unfold int_mul_float, int_add_float, float_add_int, float_div_int.
    rewrite (float_of_int_in_range room_total) by lia.
    rewrite (float_of_int_in_range procedure_cost) by exact Hproc.
    rewrite (float_of_int_in_range (Z.max days 1)) by lia.
    assert (Hnz : (Z.max days 1 =? 0) = false) by (apply Z.eqb_neq; lia).
    rewrite Hnz. cbn [res_bind]. eexists. repeat split. }
  assert (Hraise : float_limit <= room_total \/
                   float_limit <= Z.abs procedure_cost ->
                   calculate_hospitalization_cost hospital_type days
                     procedure_cost
                   = Raise (OverflowError "int too large to convert to float")).
  { intros Hout. unfold calculate_hospitalization_cost.
    fold per_day. fold room_total.
    unfold int_mul_float, int_add_float, float_add_int, float_div_int.
    destruct (Z_lt_le_dec room_total float_limit) as [Hroom|Hroom].
    - destruct Hout as [Hout|Hout]; [lia|].
      rewrite (float_of_int_in_range room_total) by lia.
      rewrite (float_of_int_out_of_range procedure_cost) by exact Hout.
      reflexivity.
    - rewrite (float_of_int_out_of_range room_total) by lia.
      reflexivity. }
  split; [exact Hok|]. split; [exact Hraise|].
  intros msg Hzero.
  destruct (Z_lt_le_dec room_total float_limit) as [Hroom|Hroom];
    [destruct (Z_lt_le_dec (Z.abs procedure_cost) float_limit) as [Hproc|Hproc]|].
  - destruct (Hok Hroom Hproc) as (r & Hr & _). rewrite Hr in Hzero.
    discriminate Hzero.
  - rewrite Hraise in Hzero by (now right). discriminate Hzero.
  - rewrite Hraise in Hzero by (now left). discriminate Hzero.
Qed.

(** X7.  The hospital type is looked up as it is written: for a type that
    is no key of [room_costs], such as ["Private"] with a capital, a day
    costs the default 1000 and an OPD visit the default 300. *)
Theorem X7_unknown_hospital_type_defaults
  (hospital_type : string) :
  (forall key costs, In (key, costs) room_costs -> key <> hospital_type) ->
  (forall days procedure_cost r,
     calculate_hospitalization_cost hospital_type days procedure_cost = Ret r ->
     room_charges (breakdown r) = Int (1000 * Z.max days 1)) /\
  (forall disease days visits r,
     estimate_total_healthcare_cost disease hospital_type days visits = Ret r ->
     opd_cost_per_visit (details r) = 300 /\
     annual_opd_visits (summary r) = Int (300 * visits)).
Proof.
  intros Hkeys.
  assert (Hnone : dict_get room_costs hospital_type = None).
  { unfold room_costs in *. cbn [dict_get].
    repeat match goal with
    | |- context [String.eqb ?k hospital_type] =>
        destruct (String.eqb_spec k hospital_type) as [E|_];
        [exfalso; eapply Hkeys; [|exact E]; cbn; tauto|]
    end. reflexivity. }
  assert (Hper_day : dict_get_default
                       (dict_get_default room_costs hospital_type [])
                       "per_day" 1000 = 1000).
  { unfold dict_get_default at 2. now rewrite Hnone. }
  assert (Hopd : dict_get_default
                   (dict_get_default room_costs hospital_type [])
                   "opd" 300 = 300).
  { unfold dict_get_default at 2. now rewrite Hnone. }
  split.
  - intros days procedure_cost r. unfold calculate_hospitalization_cost.
    cbv zeta. rewrite !Hper_day.
    destruct (int_mul_float _ (float_lit 24 100)) as [m|e]; [|discriminate].
    cbn [res_bind].
    destruct (int_mul_float _ (float_lit 10 100)) as [t|e]; [|discriminate].
    cbn [res_bind].
    destruct (int_mul_float _ (float_lit 17 100)) as [f|e]; [|discriminate].
    cbn [res_bind].
    destruct (int_mul_float _ (float_lit 39 100)) as [o|e]; [|discriminate].
    cbn [res_bind].
    destruct (int_add_float _ m) as [s|e]; [|discriminate].
    cbn [res_bind].
    destruct (float_add_int _ procedure_cost) as [total|e]; [|discriminate].
    cbn [res_bind].
    destruct (float_div_int total _) as [avg|e]; [|discriminate].
    cbn [res_bind]. intros E. injection E as <-. reflexivity.
  - intros disease days visits r. unfold estimate_total_healthcare_cost.
    cbv zeta. rewrite !Hopd.
    destruct (if 0 <? days then _ else _) as [hosp|e]; [|discriminate].
    cbn [res_bind].
    destruct (num_add (fst hosp) _) as [t|e]; [|discriminate].
    cbn [res_bind].
    destruct (num_add t _) as [total|e]; [|discriminate].
    cbn [res_bind]. intros E. injection E as <-. split; reflexivity.
Qed.

(** X8.  [calculate_annual_medicine_cost] finds a disease exactly when its
    lower-cased name is one of the four keys of [medicine_costs].  A found
    disease gets a yearly total of twelve monthly totals, the monthly total
    is the sum of the listed medicines, and the breakdown has no
    ["monthly_total"] entry; any other name gets status ["not_found"] with
    the four known names. *)
Theorem X8_annual_medicine_cost (disease : string) :
  match calculate_annual_medicine_cost disease with
  | MedicineNotFound error available =>
      ~ In (lower disease)
          ["diabetes"; "hypertension"; "asthma"; "heart disease"] /\
      error = "Disease '" ++ disease ++ "' not found in medicine database." /\
      available = ["diabetes"; "hypertension"; "asthma"; "heart disease"]
  | MedicineSuccess name medicines monthly annual average =>
      In (lower disease)
        ["diabetes"; "hypertension"; "asthma"; "heart disease"] /\
      name = disease /\
      annual = 12 * monthly /\ average = monthly /\
      monthly = fold_left Z.add (map snd medicines) 0 /\
      ~ In "monthly_total" (map fst medicines)
  end.
Proof.
  unfold calculate_annual_medicine_cost, medicine_costs. cbn [dict_get].
  repeat match goal with
  | |- context [String.eqb ?k (lower disease)] =>
      destruct (String.eqb_spec k (lower disease)) as [<-|?]
  end; cbn; repeat split; try tauto; try lia;
    try (intros H; decompose [or] H; try discriminate; congruence).
Qed.

(** X9.  [estimate_total_healthcare_cost] fails in one way only: it raises
    [OverflowError] exactly when a stay is asked for ([0 < hospital_days])
    and the room charge or the yearly OPD cost is outside the range of
    floats; in every other case it returns status ["success"]. *)
Theorem X9_estimate_raises_only_beyond_float_range
  (disease hospital_type : string) (hospital_days opd_visits_per_year : Z) :
  let per_day :=
    dict_get_default (dict_get_default room_costs hospital_type [])
      "per_day" 1000 in
  let opd :=
    dict_get_default (dict_get_default room_costs hospital_type [])
      "opd" 300 in
  let too_large :=
    0 < hospital_days /\
    (float_limit <= per_day * hospital_days \/
     float_limit <= Z.abs (opd * opd_visits_per_year)) in
  (too_large ->
   estimate_total_healthcare_cost disease hospital_type hospital_days
     opd_visits_per_year
   = Raise (OverflowError "int too large to convert to float")) /\
  (~ too_large ->
   exists r,
     estimate_total_healthcare_cost disease hospital_type hospital_days
       opd_visits_per_year = Ret r /\
     status r = "success").
Proof.
  intros per_day opd too_large. subst too_large.
  pose proof (per_day_bounds hospital_type) as Hpd. fold per_day in Hpd.
  pose proof (annual_medicine_bounds disease) as Hmed. cbv zeta in Hmed.
  assert (Hlim : 8000 * 10 ^ 300 < float_limit) by exact float_limit_bound.
  assert (Hlim' : 30000 < float_limit).
  { assert (1 <= 10 ^ 300) by (apply Z.lt_pred_le, Z.pow_pos_nonneg; lia).
    lia. }
  unfold estimate_total_healthcare_cost. fold opd.
  set (med := if String.eqb _ "success" then _ else 0) in *.
  destruct (0 <? hospital_days) eqn:Hd.
  - apply Z.ltb_lt in Hd. unfold calculate_hospitalization_cost.
    fold per_day. rewrite Z.max_l by lia.
    unfold int_mul_float, int_add_float, float_add_int, float_div_int.
    destruct (Z_lt_le_dec (per_day * hospital_days) float_limit) as [Hroom|Hroom].
    + rewrite (float_of_int_in_range (per_day * hospital_days)) by nia.
      rewrite (float_of_int_in_range 0) by (cbn; lia).
      rewrite (float_of_int_in_range hospital_days) by nia.
      assert (Hnz : (hospital_days =? 0) = false) by (apply Z.eqb_neq; lia).
      rewrite Hnz.
      cbn [res_bind fst snd total_cost num_round num_add].
      unfold float_add_int.
      rewrite (float_of_int_in_range med) by lia.
      cbn [res_bind num_add]. unfold float_add_int.
      destruct (Z_lt_le_dec (Z.abs (opd * opd_visits_per_year)) float_limit)
        as [Hopd|Hopd].
      * rewrite (float_of_int_in_range (opd * opd_visits_per_year))
          by exact Hopd.
        cbn [res_bind]. split; [intros [_ [H|H]]; lia|].
        intros _. eexists. split; reflexivity.
      * rewrite (float_of_int_out_of_range (opd * opd_visits_per_year))
          by exact Hopd.
        cbn [res_bind]. split; [reflexivity|].
        intros Hnot. exfalso. apply Hnot. split; [exact Hd | now right].
    + rewrite (float_of_int_out_of_range (per_day * hospital_days)) by nia.
      cbn [res_bind]. split; [reflexivity|].
      intros Hnot. exfalso. apply Hnot. split; [exact Hd | now left].
  - apply Z.ltb_ge in Hd. cbn [res_bind fst snd num_add]. split.
    + intros [Hpos _]. lia.
    + intros _. eexists. split; reflexivity.
Qed.

(** X10.  Without a hospital stay ([hospital_days <= 0]) the estimate is
    made in integers and cannot fail, whatever the visit count: the
    hospitalization is 0, there are no hospitalization details, and the
    estimated total is exactly the medicines plus the OPD visits. *)
Theorem X10_estimate_without_stay_is_exact
  (disease hospital_type : string) (hospital_days opd_visits_per_year : Z) :
  hospital_days <= 0 ->
  exists r medicines opd,
    estimate_total_healthcare_cost disease hospital_type hospital_days
      opd_visits_per_year = Ret r /\
    hospitalization (summary r) = Int 0 /\
    hospitalization_details (details r) = None /\
    annual_medicines (summary r) = Int medicines /\
    annual_opd_visits (summary r) = Int opd /\
    opd = opd_cost_per_visit (details r) * opd_visits_per_year /\
    estimated_annual_total (summary r) = Int (medicines + opd).
Proof.
  intros Hd. unfold estimate_total_healthcare_cost.
  assert (E : (0 <? hospital_days) = false) by (apply Z.ltb_ge; lia).
  rewrite E. cbn [res_bind fst snd num_add].
  eexists _, _, _. repeat split.
Qed.

(** X12.  [get_disease_symptoms] knows exactly the diseases the medicine
    table knows, under their lower-cased names: each of them has five
    symptoms, and every other name gets the empty list. *)
Theorem X12_symptoms_for_the_medicine_diseases (disease : string) :
  (medicine_status (calculate_annual_medicine_cost disease) = "success" /\
   List.length (MedicalTools.get_disease_symptoms disease) = 5%nat) \/
  (medicine_status (calculate_annual_medicine_cost disease) = "not_found" /\
   MedicalTools.get_disease_symptoms disease = []).
Proof.
  unfold MedicalTools.get_disease_symptoms, MedicalTools.DISEASE_SYMPTOMS,
    calculate_annual_medicine_cost, medicine_costs. cbn [dict_get].
  repeat match goal with
  | |- context [String.eqb ?k (lower disease)] =>
      destruct (String.eqb k (lower disease))
  end; cbn; tauto.
Qed.

(** X13.  When [extract_location_from_query] finds a location it is one of
    the seven canonical city names, never an alias as typed. *)
Theorem X13_location_is_a_canonical_city (query city : string) :
  MedicalTools.extract_location_from_query query = Some city ->
  In city ["Delhi"; "Mumbai"; "Bangalore"; "Hyderabad"; "Pune"; "Kolkata";
           "Chennai"].
Proof.
  unfold MedicalTools.extract_location_from_query, MedicalTools.cities.
  cbv zeta. cbn [MedicalTools.location_loop].
  repeat match goal with
  | |- context [contains ?k ?q] => destruct (contains k q)
  end; intros E; try discriminate E; injection E as <-; cbn; tauto.
Qed.

End CostEstimatorExtras.

(** ** The collaborators behind [process] *)

Section HealthAdvisorExtras.
Context {B : Builtins}.
Import SupervisorAgent.

(** X14.  [get_disease_info] never raises: an exception of the chat model
    becomes status ["error"].  With this advisor the health block of
    [process] always gets its dict, and the section is the header with the
    model's answer, or the fixed failure text when the model raised. *)
Theorem X14_health_advisor_never_raises
  (agent : HealthAdvisorAgent.t) (self : t) (query : string) :
  health_advisor self = health_advisor_agent agent ->
  let q := strip query in
  let topic := health_topic q (MedicalTools.extract_disease_from_query q) in
  exists info,
    health_call self q = Ret info /\
    match HealthAdvisorAgent.llm_invoke agent
            (HealthAdvisorAgent.disease_prompt topic) with
    | Ret content =>
        info_status info = "success" /\
        health_section info = Ret (health_header ++ content)
    | Raise _ =>
        info_status info = "error" /\
        health_section info = Ret health_failure_text
    end.
Proof.
  intros Hself q topic. unfold health_call. rewrite Hself.
  cbn [get_disease_info health_advisor_agent]. fold topic.
  unfold HealthAdvisorAgent.get_disease_info.
  destruct (HealthAdvisorAgent.llm_invoke agent _) as [content|e];
    eexists; (split; [reflexivity|]); split; reflexivity.
Qed.

End HealthAdvisorExtras.

Section HospitalFinderExtras.
Import HospitalFinderAgent.
Variable str_contains : string -> res (string -> bool).

Lemma filter_or_absorbed {A : Type} (f g : A -> bool) (l : list A) :
  filter (fun x => f x || g x) (filter g l) = filter g l.
Proof.
  induction l as [|x l IH]; cbn [filter]; [reflexivity|].
  destruct (g x) eqn:Hg; [|exact IH].
  cbn [filter]. rewrite Hg, orb_true_r. now f_equal.
Qed.

(** X17.  Under the type filter ["Private"] the disease filter removes no
    row, because a row passes it as soon as its type matches ["Private"]:
    the hospitals [process] gets from the hospital finder are the same
    whatever disease was extracted from the query. *)
Theorem X17_disease_ignored_for_private_hospitals
  (hospitals_df : list Row) (disease : string) (location : option string)
  (top_n : Z) (m_private m_disease : string -> bool) :
  str_contains "Private" = Ret m_private ->
  str_contains disease = Ret m_disease ->
  SupervisorAgent.find_hospitals (hospital_finder_agent str_contains hospitals_df)
    (Some disease) location "Private" top_n
  = SupervisorAgent.find_hospitals (hospital_finder_agent str_contains hospitals_df)
      None location "Private" top_n.
Proof.
  intros Hp Hd.
  cbn [SupervisorAgent.find_hospitals hospital_finder_agent].
  unfold find_hospitals.
  destruct (match location with
            | Some pat => if String.eqb pat "" then Ret hospitals_df else _
            | None => Ret hospitals_df
            end) as [df1|e]; [|reflexivity].
  cbn [res_bind String.eqb Ascii.eqb Bool.eqb]. rewrite Hp. cbn [res_bind].
  destruct (String.eqb disease "");
    [cbn [res_bind]; destruct (filter _ df1); reflexivity|].
  rewrite Hd. cbn [res_bind]. rewrite filter_or_absorbed.
  destruct (filter _ df1); reflexivity.
Qed.






End HospitalFinderExtras.

(** ** [app.py] and the start of the supervisor *)

Section AppExtras.
Context {B : Builtins}.
Import SupervisorAgent.

(** X15.  The supervisor is built when the key is usable, the chat model
    is constructed and the hospital frame is loaded (no CSV file, or a
    file that reads).  Without a usable [GOOGLE_API_KEY] (unset or empty)
    building raises [ValueError]; an exception of the chat model's
    constructor or of reading the CSV file is raised as it is.  Whenever
    building raised, the session keeps no supervisor and every submitted
    question that is not blank is answered with the initialization error:
    [process] is not run. *)
Theorem X15_missing_key_disables_the_app
  (ChatGoogleGenerativeAI : string -> res (string -> res string))
  (str_contains : string -> res (string -> bool))
  (env_key : option string)
  (csv : option (res (list HospitalFinderAgent.Row)))
  (query : string) :
  let built := supervisor_init ChatGoogleGenerativeAI str_contains env_key csv in
  (falsy env_key = true ->
   built = Raise (ValueError
                    "GOOGLE_API_KEY not found. Please set it in your .env file."))
  /\
  (forall key,
     env_key = Some key -> key <> "" ->
     (forall e, ChatGoogleGenerativeAI key = Raise e -> built = Raise e) /\
     (forall llm e,
        ChatGoogleGenerativeAI key = Ret llm -> csv = Some (Raise e) ->
        built = Raise e) /\
     (forall llm hospitals_df,
        ChatGoogleGenerativeAI key = Ret llm ->
        HospitalFinderAgent.init csv = Ret hospitals_df ->
        exists sup, built = Ret sup /\
                    App.supervisor (App.init_session built) = Some sup)) /\
  (forall e,
     built = Raise e ->
     App.supervisor (App.init_session built) = None /\
     (strip query <> "" ->
      App.on_submit (App.init_session built) query
      = (App.Error "SupervisorAgent is not initialized. Check your GOOGLE_API_KEY and imports.",
         App.init_session built))).
Proof.
  intros built. split; [|split].
  - intros Hfalsy. subst built.
    unfold supervisor_init, HealthAdvisorAgent.init. cbn [falsy].
    destruct env_key as [key|]; cbn [falsy] in Hfalsy.
    + rewrite Hfalsy. reflexivity.
    + reflexivity.
  - intros key -> Hkey. subst built.
    unfold supervisor_init, HealthAdvisorAgent.init. cbn [falsy].
    destruct (String.eqb_spec key ""); [contradiction|].
    split; [|split].
    + intros e He. rewrite He. reflexivity.
    + intros llm e Hllm ->. rewrite Hllm. reflexivity.
    + intros llm hospitals_df Hllm Hdf. rewrite Hllm. cbn [res_bind].
      rewrite Hdf. cbn [res_bind]. eexists. split; reflexivity.
  - intros e He. rewrite He. split; [reflexivity|].
    intros NE. unfold App.on_submit.
    destruct (String.eqb_spec (strip query) ""); [contradiction|].
    reflexivity.
Qed.

(** X16.  The page never fails on a collaborator: when the hospital lookup
    raises, the answer shown is the error text with the exception's
    message, and when the lookup reports success without a ["hospitals"]
    entry, it is the error text with the missing key in quotes.  In both
    cases nothing is added to the history. *)
Theorem X16_app_shows_exception_as_text
  (st : App.session) (sup : t) (query : string) :
  App.supervisor st = Some sup ->
  strip query <> "" ->
  let q := strip query in
  _needs_hospital q = true ->
  (exists h, run_block (_needs_health_info q) (health_call sup q)
               health_section = Ret h) ->
  (forall e,
     hospital_call sup q = Raise e ->
     App.on_submit st query
     = (App.Answer ("Error while processing your question: " ++ exn_str e),
        st)) /\
  (forall found,
     hospital_call sup q = Ret found ->
     hospital_status found = "success" -> hospitals found = None ->
     App.on_submit st query
     = (App.Answer "Error while processing your question: 'hospitals'", st)).
Proof.
  intros Hsup NE q Hfired [h Hh].
  assert (Hrun : forall e,
            run_block (_needs_hospital q) (hospital_call sup q)
              hospital_section = Raise e ->
            App.on_submit st query
            = (App.Answer
                 ("Error while processing your question: " ++ exn_str e), st)).
  { intros e He. unfold App.on_submit.
    destruct (String.eqb_spec (strip query) ""); [contradiction|].
    rewrite Hsup, process_outcome by exact NE. fold q. unfold compose.
    rewrite Hh, He. reflexivity. }
  split.
  - intros e He. apply Hrun. unfold run_block. now rewrite Hfired, He.
  - intros found Hf Hs Hnone.
    apply (Hrun (KeyError "hospitals")).
    unfold run_block. rewrite Hfired, Hf. cbn [res_bind].
    unfold hospital_section. now rewrite Hs, Hnone.
Qed.

End AppExtras.

Section EndToEndCost.
Context {B : Builtins}.
Import SupervisorAgent.

(** X11.  With the repository's estimator the cost section depends on the
    query through the extracted disease alone, given that lower-casing
    leaves the lower-case disease labels as they are: the hospitalization
    is always that of three private days, 34200.0, and the OPD visits
    ₹15012; the medicines are those of the disease, of diabetes when no
    disease was found, and ₹0 for the five labels the medicine table does
    not know; the total is their sum. *)
Theorem X11_cost_section_by_disease (self : t) (query : string) :
  cost_estimator self = cost_estimator_agent ->
  (forall l, In l ("diabetes" :: MedicalTools.diseases) -> lower l = l) ->
  let d := MedicalTools.extract_disease_from_query (strip query) in
  let medicines :=
    match dict_get [ ("general", 30000); ("diabetes", 30000);
                     ("hypertension", 6600); ("asthma", 12000);
                     ("heart disease", 10200) ] d with
    | Some m => m
    | None => 0
    end in
  let s :=
    {| hospitalization := Float (nearest_float 34200);
       annual_medicines := Int medicines;
       annual_opd_visits := Int 15012;
       estimated_annual_total := Float (nearest_float (49212 + medicines)) |} in
  cost_call self (strip query)
  = Ret {| cost_status := "success"; summary := Some s |} /\
  cost_text s =
    Ret ("💰 COST ESTIMATES" ++ nl
         ++ "- Annual Medicines: ₹" ++ decimal medicines ++ nl
         ++ "- Annual OPD Visits: ₹15012" ++ nl
         ++ "- Hospitalization (approx): ₹"
         ++ float_repr (nearest_float 34200) ++ nl
         ++ "- Estimated Annual Total: ₹"
         ++ float_repr (nearest_float (49212 + medicines)) ++ nl).
Proof.
  intros Hself Hlower d medicines s. subst s medicines.
  unfold cost_call. rewrite Hself. fold d.
  cbn [estimate_total_healthcare_cost cost_estimator_agent].
  unfold CostEstimatorAgent.estimate_total_healthcare_cost,
    CostEstimatorAgent.calculate_annual_medicine_cost.
  assert (Hd : d = "general" \/ In d MedicalTools.diseases)
    by apply disease_loop_range.
  assert (Hlow : lower (cost_disease d) = cost_disease d).
  { apply Hlower. destruct Hd as [->|Hd]; [now left|].
    right. unfold cost_disease.
    destruct (String.eqb_spec d "general") as [->|_]; [|exact Hd].
    cbn in Hd. decompose [or] Hd; discriminate || contradiction. }
  rewrite Hlow. clear Hlow.
  cbn [MedicalTools.diseases In] in Hd.
  decompose [or] Hd; clear Hd;
    match goal with
    | H : False |- _ => destruct H
    | H : d = _ |- _ => rewrite H
    | H : _ = d |- _ => rewrite <- H
    end; split; vm_compute; reflexivity.
Qed.

End EndToEndCost.

(** ** The further properties at concrete inputs *)

Section ExtraWitnesses.
Import SupervisorAgent.

Lemma X1_witness :
  hospitals_text ([] ++ [Examples.apollo]) =
  Ret (hospital_header ++
         (nl ++ "1. Apollo Hospitals (Delhi, Delhi)"
          ++ nl ++ "   Type: Private"
          ++ nl ++ "   Specialties: Cardiology, Oncology, Neurology, Endocrinology"
          ++ nl ++ "   Beds: 500"
          ++ nl ++ "   Contact: +91-11-47444444" ++ nl)).
Proof.
  apply (proj1 (proj2 (X1_hospitals_numbered_in_order [] Examples.apollo))).
  - reflexivity.
  - vm_compute. reflexivity.
  - vm_compute. reflexivity.
Defined.


Lemma X3_witness :
  In (Call_get_disease_info "hospital info")
     (trace (process Examples.agents "  hospital info ")) /\
  "hospital info" = strip "  hospital info ".
Proof.
  assert (Hin : In (Call_get_disease_info "hospital info")
                   (trace (process Examples.agents "  hospital info ")))
    by (vm_compute; tauto).
  split; [exact Hin|].
  refine (X3_no_label_arguments Examples.agents "  hospital info " _ _
            (Call_get_disease_info "hospital info") Hin).
  - vm_compute. discriminate.
  - intros l Hl. apply contains_false_iff.
    cbn [MedicalTools.diseases In] in Hl.
    repeat (destruct Hl as [<-|Hl]; [reflexivity|]). destruct Hl.
Defined.

Lemma X5_witness :
  CostEstimatorAgent.calculate_hospitalization_cost "private" (-2) 0 =
  (r <- CostEstimatorAgent.calculate_hospitalization_cost "private" 1 0 ;;
   Ret {| CostEstimatorAgent.hosp_status := CostEstimatorAgent.hosp_status r;
          CostEstimatorAgent.hospital_type := CostEstimatorAgent.hospital_type r;
          CostEstimatorAgent.days_admitted := -2;
          CostEstimatorAgent.breakdown := CostEstimatorAgent.breakdown r;
          CostEstimatorAgent.total_cost := CostEstimatorAgent.total_cost r;
          CostEstimatorAgent.average_per_day :=
            CostEstimatorAgent.average_per_day r |})%res.
Proof.
  apply X5_short_stay_billed_as_one_day. lia.
Defined.

Lemma X6_witness :
  exists r,
    CostEstimatorAgent.calculate_hospitalization_cost "private" 3 0 = Ret r /\
    CostEstimatorAgent.hosp_status r = "success" /\
    CostEstimatorAgent.room_charges (CostEstimatorAgent.breakdown r)
    = Int (6000 * Z.max 3 1) /\
    CostEstimatorAgent.days_admitted r = 3.
Proof.
  apply (proj1 (X6_hospitalization_cost_outcome "private" 3 0)).
  - apply Z.ltb_lt. vm_compute. reflexivity.
  - apply Z.ltb_lt. vm_compute. reflexivity.
Defined.

Lemma X7_witness :
  exists r,
    CostEstimatorAgent.calculate_hospitalization_cost "Private" 2 0 = Ret r /\
    CostEstimatorAgent.room_charges (CostEstimatorAgent.breakdown r)
    = Int (1000 * Z.max 2 1).
Proof.
  eexists. split; [vm_compute; reflexivity|].
  refine (proj1 (X7_unknown_hospital_type_defaults "Private" _) 2 0 _ _).
  - intros key costs Hin. cbn [CostEstimatorAgent.room_costs In] in Hin.
    repeat (destruct Hin as [E|Hin]; [injection E as <- _; discriminate|]).
    destruct Hin.
  - vm_compute. reflexivity.
Defined.

Lemma X9_witness :
  exists r,
    CostEstimatorAgent.estimate_total_healthcare_cost "diabetes" "private" 3 12
    = Ret r /\
    CostEstimatorAgent.status r = "success".
Proof.
  apply (proj2 (X9_estimate_raises_only_beyond_float_range
                  "diabetes" "private" 3 12)).
  intros [_ [H|H]]; vm_compute in H; apply H; reflexivity.
Defined.

Lemma X10_witness :
  exists r medicines opd,
    CostEstimatorAgent.estimate_total_healthcare_cost "asthma" "district" 0 4
    = Ret r /\
    hospitalization (CostEstimatorAgent.summary r) = Int 0 /\
    CostEstimatorAgent.hospitalization_details (CostEstimatorAgent.details r)
    = None /\
    annual_medicines (CostEstimatorAgent.summary r) = Int medicines /\
    annual_opd_visits (CostEstimatorAgent.summary r) = Int opd /\
    opd = CostEstimatorAgent.opd_cost_per_visit (CostEstimatorAgent.details r) * 4 /\
    estimated_annual_total (CostEstimatorAgent.summary r)
    = Int (medicines + opd).
Proof.
  apply X10_estimate_without_stay_is_exact. lia.
Defined.

Lemma X11_witness :
  exists s,
    cost_call Examples.agents "asthma cost"
    = Ret {| cost_status := "success"; summary := Some s |} /\
    cost_text s =
      Ret ("💰 COST ESTIMATES" ++ nl
           ++ "- Annual Medicines: ₹12000" ++ nl
           ++ "- Annual OPD Visits: ₹15012" ++ nl
           ++ "- Hospitalization (approx): ₹34200.0" ++ nl
           ++ "- Estimated Annual Total: ₹61212.0" ++ nl).
Proof.
  assert (Hlower : forall l, In l ("diabetes" :: MedicalTools.diseases) ->
                             lower l = l).
  { intros l Hl. cbn [MedicalTools.diseases In] in Hl.
    repeat (destruct Hl as [<-|Hl]; [reflexivity|]). destruct Hl. }
  pose proof (X11_cost_section_by_disease Examples.agents "asthma cost"
                eq_refl Hlower) as H.
  cbv zeta in H. destruct H as [Hcall Htext].
  eexists. split; [exact Hcall|].
  rewrite Htext. vm_compute. reflexivity.
Defined.

Lemma X13_witness :
  In "Bangalore" ["Delhi"; "Mumbai"; "Bangalore"; "Hyderabad"; "Pune";
                  "Kolkata"; "Chennai"].
Proof.
  apply (X13_location_is_a_canonical_city "Best hospital in Bengaluru").
  reflexivity.
Defined.

Lemma X14_witness :
  exists info,
    health_call (Examples.sample_supervisor Examples.failing_model)
      "diabetes info" = Ret info /\
    info_status info = "error" /\
    health_section info = Ret health_failure_text.
Proof.
  apply (X14_health_advisor_never_raises Examples.failing_model
           (Examples.sample_supervisor Examples.failing_model) "diabetes info").
  reflexivity.
Defined.

Lemma X15_witness :
  supervisor_init (fun _ => Ret (fun _ => Ret "ok")) Examples.plain_contains
    (Some "") None
  = Raise (ValueError
             "GOOGLE_API_KEY not found. Please set it in your .env file.").
Proof.
  apply (proj1 (X15_missing_key_disables_the_app
                  (fun _ => Ret (fun _ => Ret "ok")) Examples.plain_contains
                  (Some "") None "hospital")).
  reflexivity.
Defined.

Lemma X16_witness :
  App.on_submit
    {| App.supervisor := Some Examples.agents_raising_finder;
       App.history := [("hello", help_text)] |}
    "hospital in Pune"
  = (App.Answer "Error while processing your question: hospital lookup failed",
     {| App.supervisor := Some Examples.agents_raising_finder;
        App.history := [("hello", help_text)] |}).
Proof.
  refine (proj1 (X16_app_shows_exception_as_text
                   {| App.supervisor := Some Examples.agents_raising_finder;
                      App.history := [("hello", help_text)] |}
                   Examples.agents_raising_finder "hospital in Pune"
                   _ _ _ _) (ExternalError "hospital lookup failed") _).
  - reflexivity.
  - vm_compute. discriminate.
  - reflexivity.
  - eexists. reflexivity.
  - reflexivity.
Defined.

Lemma X17_witness :
  find_hospitals
    (hospital_finder_agent Examples.plain_contains
       HospitalFinderAgent.sample_data)
    (Some "heart disease") (Some "Delhi") "Private" 5
  = find_hospitals
      (hospital_finder_agent Examples.plain_contains
         HospitalFinderAgent.sample_data)
      None (Some "Delhi") "Private" 5.
Proof.
  eapply X17_disease_ignored_for_private_hospitals; reflexivity.
Defined.


End ExtraWitnesses.

(** ** Blank padding around an ASCII query *)

Section BlankPadding.
Import SupervisorAgent.

Lemma string_app_assoc (a b c : string) : (a ++ b) ++ c = a ++ b ++ c.
Proof.
  induction a as [|x a IH]; simpl; [reflexivity | now f_equal].
Qed.

Lemma occurs_in_trans (a b c : string) :
  occurs_in a b -> occurs_in b c -> occurs_in a c.
Proof.
  intros (p1 & s1 & ->) (p2 & s2 & ->).
  exists (p2 ++ p1), (s1 ++ s2).
  now rewrite !string_app_assoc.
Qed.

Lemma lower_ascii_app (a b : string) :
  lower_ascii (a ++ b) = lower_ascii a ++ lower_ascii b.
Proof.
  induction a as [|x a IH]; simpl; [reflexivity | now f_equal].
Qed.

Lemma lower_ascii_occurs (a b : string) :
  occurs_in a b -> occurs_in (lower_ascii a) (lower_ascii b).
Proof.
  intros (pre & post & ->). exists (lower_ascii pre), (lower_ascii post).
  now rewrite !lower_ascii_app.
Qed.

Lemma lstrip_ascii_suffix (s : string) : exists pre, s = pre ++ lstrip_ascii s.
Proof.
  induction s as [|c s [pre IH]]; cbn [lstrip_ascii].
  - now exists "".
  - destruct (is_space c).
    + exists (String c pre). simpl. now f_equal.
    + now exists "".
Qed.

Lemma rstrip_ascii_prefix (s : string) : exists post, s = rstrip_ascii s ++ post.
Proof.
  induction s as [|c s [post IH]]; cbn [rstrip_ascii].
  - now exists "".
  - destruct (rstrip_ascii s) as [|d t] eqn:E.
    + destruct (is_space c).
      * exists (String c s). reflexivity.
      * exists post. simpl. f_equal. exact IH.
    + exists post. simpl. f_equal. exact IH.
Qed.

Lemma strip_ascii_occurs (s : string) : occurs_in (strip_ascii s) s.
Proof.
  unfold strip_ascii.
  destruct (lstrip_ascii_suffix s) as [pre Hpre].
  destruct (rstrip_ascii_prefix (lstrip_ascii s)) as [post Hpost].
  exists pre, post. now rewrite <- Hpost.
Qed.

(** When no intent fires the run is the five local calls and the help
    text. *)
Lemma process_no_intent {B : Builtins} (self : t) (query : string) :
  strip query <> "" ->
  _needs_health_info (strip query) = false ->
  _needs_hospital (strip query) = false ->
  _needs_cost (strip query) = false ->
  process self query = (local_calls (strip query), Ret help_text).
Proof.
  intros NE Hh Hp Hc. unfold process.
  destruct (String.eqb_spec (strip query) ""); [contradiction|].
  rewrite Hh, Hp, Hc. reflexivity.
Qed.

(** X19.  Blanks around an ASCII query cannot make an intent fire: an ASCII
    query that is not blank and whose own lower-cased text, padding
    included, holds no keyword of the three sets gets the help text, and no
    collaborator is called.  On ASCII text [strip_ascii] and [lower_ascii]
    are what [str.strip] and [str.lower] compute. *)
Theorem X19_padded_query_without_keyword (self : t) (query : string) :
  is_ascii query = true ->
  strip_ascii query <> "" ->
  (forall k,
      In k (health_keywords ++ hospital_keywords ++ cost_keywords)%list ->
      ~ occurs_in k (lower_ascii query)) ->
  process self query = (local_calls (strip_ascii query), Ret help_text).
Proof.
  intros _ NE Hnone.
  assert (Hstrip : forall k,
            In k (health_keywords ++ hospital_keywords ++ cost_keywords)%list ->
            ~ occurs_in k (lower_ascii (strip_ascii query))).
  { intros k Hk Hocc. apply (Hnone k Hk).
    eapply occurs_in_trans; [exact Hocc|].
    apply lower_ascii_occurs, strip_ascii_occurs. }
  apply (@process_no_intent ascii_builtins self query NE).
  - apply any_in_false_iff. intros k Hk. apply Hstrip.
    apply in_or_app. now left.
  - apply any_in_false_iff. intros k Hk. apply Hstrip.
    apply in_or_app. right. apply in_or_app. now left.
  - apply any_in_false_iff. intros k Hk. apply Hstrip.
    apply in_or_app. right. apply in_or_app. now right.
Qed.

Lemma X19_witness :
  process Examples.agents "   Hello there   "
  = (local_calls "Hello there", Ret help_text).
Proof.
  refine (X19_padded_query_without_keyword
            Examples.agents "   Hello there   " _ _ _).
  - reflexivity.
  - vm_compute. discriminate.
  - intros k Hk. apply contains_false_iff.
    cbn [health_keywords hospital_keywords cost_keywords app In] in Hk.
    repeat (destruct Hk as [<-|Hk]; [reflexivity|]). destruct Hk.
Defined.

End BlankPadding.
